(** * osgEarth: tile data resolution, profile reconciliation and cache
      reachability

    A shallow embedding of
    - [src/osgEarth/TileBuilder.cpp]: [TileBuilder::getDataProfile],
      [TileBuilder::isValid], [TileBuilder::createValidHeightField] and
      [TileBuilder::createValidImage];
    - [src/osgEarth/MapFrame.cpp]: [MapFrame::isCached].

    Pointers that may be null ([osg::ref_ptr], raw pointers returned by
    factories) are [option]s.  Objects with virtual methods (tile sources,
    terrain layers) are records of their observable answers.  Calls made on
    external collaborators are recorded in a trace next to the result, so
    that the order of the calls and the point where evaluation stops can
    be stated. *)

From Equations Require Import Equations.
From Stdlib Require Import List Arith Bool Lia NArith String.
From Stdlib Require Import ZArith Permutation.
Import ListNotations.


(* ===================================================================== *)
(** * TileBuilder.cpp *)
(* ===================================================================== *)

Module TileBuilder.

(** [TileGridProfile::ProfileType], the four enumerators the source names. *)
Inductive ProfileType : Type :=
| UNKNOWN
| GLOBAL_GEODETIC
| GLOBAL_MERCATOR
| PROJECTED.

Definition ProfileType_eqb (a b : ProfileType) : bool :=
  match a, b with
  | UNKNOWN, UNKNOWN
  | GLOBAL_GEODETIC, GLOBAL_GEODETIC
  | GLOBAL_MERCATOR, GLOBAL_MERCATOR
  | PROJECTED, PROJECTED => true
  | _, _ => false
  end.

(** [MapConfig::CoordinateSystemType].  The source names only
    [CSTYPE_GEOCENTRIC]; every other mode is the flat one its error message
    asks for ([type="flat"]). *)
Inductive CoordinateSystemType : Type :=
| CSTYPE_GEOCENTRIC
| CSTYPE_PROJECTED.

Definition CoordinateSystemType_eqb (a b : CoordinateSystemType) : bool :=
  match a, b with
  | CSTYPE_GEOCENTRIC, CSTYPE_GEOCENTRIC
  | CSTYPE_PROJECTED, CSTYPE_PROJECTED => true
  | _, _ => false
  end.

(** Class [TileGridProfile] is declared outside [src/].  The source uses its
    [profileType()] accessor and its [operator!=]; both are parameters, with
    no assumption on how [operator!=] compares two profiles. *)
Class Profiles : Type := {
  TileGridProfile : Type;
  profileType : TileGridProfile -> ProfileType;
  profile_neq : TileGridProfile -> TileGridProfile -> bool
}.

(** Modelled from the spec: class [TileKey] is declared outside [src/].  A
    key is a quad-tree cell (level, column, row, profile reference). *)
Record TileKey `{Profiles} : Type := mkTileKey {
  level : nat;
  column : nat;
  row : nat;
  keyProfile : TileGridProfile
}.

Arguments TileKey {_}.
Arguments mkTileKey {_} _ _ _ _.

(** Modelled from the spec: [TileKey::createParentKey] yields the unique
    ancestor one level up (the cell that contains this one under quad-tree
    addressing), or nothing at level 0. *)
Definition createParentKey `{Profiles} (k : TileKey) : option TileKey :=
  match level k with
  | 0 => None
  | S l => Some (mkTileKey l (column k / 2) (row k / 2) (keyProfile k))
  end.

(** [osg::Image] and [osg::HeightField] belong to OpenSceneGraph and
    [HeightFieldExtractor] is declared outside [src/]: rasters are opaque
    parameters.  [extractChild parentKey parentHf childKey w h] stands for
    [HeightFieldExtractor(parentKey, parentHf).extractChild(childKey, w, h)],
    a total function to a raster as in the spec's contract of the
    extractor. *)
Class Rasters `{Profiles} : Type := {
  Image : Type;
  HeightField : Type;
  getNumColumns : HeightField -> N;
  getNumRows : HeightField -> N;
  extractChild : TileKey -> HeightField -> TileKey -> N -> N -> HeightField
}.

Section Builder.

Context `{RS : Rasters}.

(** [osgEarth::TileSource]: its name, its profile, and what [createImage] and
    [createHeightField] hand back for a key (a null pointer is [None]).  The
    resolvers below ask a source at most once per key, so an answer per key
    is all they can observe of it. *)
Record TileSource : Type := mkTileSource {
  getName : string;
  getProfile : TileGridProfile;
  createImage : TileKey -> option Image;
  createHeightField : TileKey -> option HeightField
}.

Definition TileSourceList : Type := list TileSource.

(** ** Ancestor walk *)

(** Number of loop tests still ahead of a possibly null key; it is the
    quantity that goes down at each turn of the [while] loops. *)
Definition stepsLeft (k : option TileKey) : nat :=
  match k with
  | None => 0
  | Some key => S (level key)
  end.

(** A result together with the keys at which the source was asked, in call
    order. *)
Definition Asked (A : Type) : Type := (A * list TileKey)%type.

Definition asked_at {A : Type} (k : TileKey) (r : Asked A) : Asked A :=
  (fst r, k :: snd r).

(** The [while (key.valid())] loop shared by [createValidImage] and
    [createValidHeightField]:
<<
    while (image_key.valid()) {
        image = tileSource->createImage(image_key.get());
        if (image.valid()) break;
        image_key = image_key->createParentKey();
    }
>>
    The result is the state of [(image, image_key)] after the loop: a valid
    raster with the key that produced it, or nothing. *)
Equations? parentLoop {R : Type} (create : TileKey -> option R)
    (k : option TileKey) : Asked (option (R * TileKey)) by wf (stepsLeft k) lt :=
  parentLoop create None := (None, []);
  parentLoop create (Some key) with create key := {
    | Some r := (Some (r, key), [key]);
    | None := asked_at key (parentLoop create (createParentKey key)) }.
Proof.
  unfold createParentKey. destruct (level key); simpl; lia.
Qed.

(** [TileBuilder::ImageTileKeyPair]: a pair of reference pointers, an image
    and the key it was produced at; either may be null. *)
Definition ImageTileKeyPair : Type := (option Image * option TileKey)%type.

(** [TileBuilder::createValidImage].  The boolean is the value returned, the
    pair is [imageTile] after the call. *)
Definition createValidImage (tileSource : TileSource) (key : TileKey)
    (imageTile : ImageTileKeyPair) : Asked (bool * ImageTileKeyPair) :=
  (* Try to create the image with the given key *)
  match createImage tileSource key with
  | Some image => ((true, (Some image, Some key)), [key])
  | None =>
      (* try to load from parent tiles *)
      match parentLoop (createImage tileSource) (createParentKey key) with
      | (Some (image, image_key), tried) =>
          ((true, (Some image, Some image_key)), key :: tried)
      | (None, tried) => ((false, imageTile), key :: tried)
      end
  end.

(** [TileBuilder::createValidHeightField].  The result is the pointer
    returned ([hf.release()]). *)
Definition createValidHeightField (tileSource : TileSource) (key : TileKey)
    : Asked (option HeightField) :=
  (* Try to create the heightfield with the given key *)
  match createHeightField tileSource key with
  | Some hf => (Some hf, [key])
  | None =>
      (* try to load from parent tiles *)
      match parentLoop (createHeightField tileSource) (createParentKey key) with
      | (Some (hf, hf_key), tried) =>
          (* Use a HeightFieldExtractor to sample the parent tile *)
          (Some (extractChild hf_key hf key (getNumColumns hf) (getNumRows hf)),
           key :: tried)
      | (None, tried) => (None, key :: tried)
      end
  end.

(** ** Profile reconciliation *)

(** The part of [MapConfig] that [isValid] reads. *)
Record MapConfig : Type := mkMapConfig {
  getCoordinateSystemType : CoordinateSystemType
}.

(** The members of [TileBuilder] that [getDataProfile] and [isValid] read
    or write. *)
Record TileBuilder : Type := mkTileBuilder {
  map : MapConfig;
  image_sources : TileSourceList;
  heightfield_sources : TileSourceList;
  _profileComputed : bool;
  _dataProfile : TileGridProfile
}.

(** First loop of [getDataProfile], over [image_sources], from the position
    of the iterator to the end.  [image_sources.erase(itr); continue;] drops
    the element and goes on with the one that follows it; otherwise [++itr]
    keeps it.  The result is [_dataProfile] and the part of the list from the
    iterator on, after the loop.  The notice written with [osg::notify] on a
    removal is not part of the model. *)
Fixpoint reconcileImageSources (dataProfile : TileGridProfile)
    (sources : TileSourceList) : TileGridProfile * TileSourceList :=
  match sources with
  | [] => (dataProfile, [])
  | itr :: rest =>
      if ProfileType_eqb (profileType dataProfile) UNKNOWN then
        (* no valid profile yet: take the one of this TileSource *)
        let (p, kept) := reconcileImageSources (getProfile itr) rest in
        (p, itr :: kept)
      else if profile_neq dataProfile (getProfile itr) then
        if negb (ProfileType_eqb (profileType dataProfile) GLOBAL_GEODETIC
                 && ProfileType_eqb (profileType (getProfile itr))
                      GLOBAL_MERCATOR)
        then
          (* Removing incompatible TileSource *)
          reconcileImageSources dataProfile rest
        else
          let (p, kept) := reconcileImageSources dataProfile rest in
          (p, itr :: kept)
      else
        let (p, kept) := reconcileImageSources dataProfile rest in
        (p, itr :: kept)
  end.

(** Second loop of [getDataProfile], over [heightfield_sources]. *)
Fixpoint reconcileHeightFieldSources (dataProfile : TileGridProfile)
    (sources : TileSourceList) : TileGridProfile * TileSourceList :=
  match sources with
  | [] => (dataProfile, [])
  | itr :: rest =>
      if ProfileType_eqb (profileType dataProfile) UNKNOWN then
        let (p, kept) := reconcileHeightFieldSources (getProfile itr) rest in
        (p, itr :: kept)
      else if profile_neq dataProfile (getProfile itr) then
        (* Removing incompatible TileSource *)
        reconcileHeightFieldSources dataProfile rest
      else
        let (p, kept) := reconcileHeightFieldSources dataProfile rest in
        (p, itr :: kept)
  end.

(** [TileBuilder::getDataProfile]: the profile returned and the builder
    after the call. *)
Definition getDataProfile (b : TileBuilder) : TileGridProfile * TileBuilder :=
  if _profileComputed b then (_dataProfile b, b)
  else
    let (p1, images) :=
      reconcileImageSources (_dataProfile b) (image_sources b) in
    let (p2, heightfields) :=
      reconcileHeightFieldSources p1 (heightfield_sources b) in
    (p2, mkTileBuilder (map b) images heightfields true p2).

(** [TileBuilder::isValid]: the value returned and the builder after the
    call. *)
Definition isValid (b : TileBuilder) : bool * TileBuilder :=
  if (List.length (image_sources b) =? 0)
     && (List.length (heightfield_sources b) =? 0)
  then
    (* TileBuilder does not contain any image or heightfield sources *)
    (false, b)
  else
    let (p1, b1) := getDataProfile b in
    if ProfileType_eqb (profileType p1) PROJECTED
       && CoordinateSystemType_eqb (getCoordinateSystemType (map b1))
            CSTYPE_GEOCENTRIC
    then
      (* Cannot create a geocentric scene using projected datasources *)
      (false, b1)
    else
      let (p2, b2) := getDataProfile b1 in
      if ProfileType_eqb (profileType p2) UNKNOWN then
        (* Unknown profile *)
        (false, b2)
      else (true, b2).

(** ** The ancestor chain, stated apart from the loops *)

(** [createParentKey] applied [n] times. *)
Fixpoint nthParent (n : nat) (k : TileKey) : option TileKey :=
  match n with
  | 0 => Some k
  | S m =>
      match createParentKey k with
      | Some p => nthParent m p
      | None => None
      end
  end.

Fixpoint chainFrom (n : nat) (k : TileKey) : list TileKey :=
  k :: match n with
       | 0 => []
       | S m =>
           match createParentKey k with
           | Some p => chainFrom m p
           | None => []
           end
       end.

(** The requested key followed by its parent, grandparent, ... up to the
    root. *)
Definition ancestorChain (k : TileKey) : list TileKey := chainFrom (level k) k.

(** The first key of a list at which a source answers, with its answer. *)
Fixpoint firstSuccess {R : Type} (create : TileKey -> option R)
    (keys : list TileKey) : option (R * TileKey) :=
  match keys with
  | [] => None
  | k :: rest =>
      match create k with
      | Some r => Some (r, k)
      | None => firstSuccess create rest
      end
  end.

(** The keys of a list up to and including the first at which a source
    answers (all of them when it never does). *)
Fixpoint untilSuccess {R : Type} (create : TileKey -> option R)
    (keys : list TileKey) : list TileKey :=
  match keys with
  | [] => []
  | k :: rest =>
      k :: match create k with
           | Some _ => []
           | None => untilSuccess create rest
           end
  end.

(** ** Reconciliation, stated apart from the loops *)

(** A source survives the image loop against a running profile when
    [operator!=] does not tell them apart, or the running profile is
    geodetic-global and the source's is mercator-global. *)
Definition imageCompatible (running : TileGridProfile) (s : TileSource) : bool :=
  negb (profile_neq running (getProfile s))
  || (ProfileType_eqb (profileType running) GLOBAL_GEODETIC
      && ProfileType_eqb (profileType (getProfile s)) GLOBAL_MERCATOR).

(** A source survives the heightfield loop only when [operator!=] does not
    tell its profile from the running one. *)
Definition heightFieldCompatible (running : TileGridProfile) (s : TileSource) : bool :=
  negb (profile_neq running (getProfile s)).

End Builder.

(** ** Reading results *)

(** A result of type [Asked A]: what the call yields, and the keys it asked
    the source at. *)
Abbreviation outcome r := (fst r).
Abbreviation keysAsked r := (snd r).

(** The result of [createValidImage]: the boolean returned and the caller's
    pair after the call. *)
Abbreviation returned r := (fst (fst r)).
Abbreviation imageTileAfter r := (snd (fst r)).

(** The result of a method that may change the builder. *)
Abbreviation returnValue r := (fst r).
Abbreviation builderAfter r := (snd r).

End TileBuilder.

(* ===================================================================== *)
(** * MapFrame.cpp *)
(* ===================================================================== *)

Module MapFrame.

(** Modelled from the spec: class [CachePolicy] is declared outside [src/].
    A layer's policy is one of cache-disabled, cache-only, normal. *)
Inductive CachePolicy : Type :=
| CacheDisabled
| CacheOnly
| Normal.

Definition isCacheOnly (p : CachePolicy) : bool :=
  match p with CacheOnly => true | _ => false end.

Definition isCacheDisabled (p : CachePolicy) : bool :=
  match p with CacheDisabled => true | _ => false end.

(** The methods [MapFrame::isCached] calls on a terrain layer or on its tile
    source, in the order of the source text. *)
Inductive Call : Type :=
| GetEnabled
| IsCacheOnly
| IsCacheDisabled
| MayHaveData
| GetTileSource
| BlacklistContains
| LayerIsCached.

(** A value together with the calls made to obtain it: each entry is the
    position of the layer in [_layers] and the method called on it. *)
Definition Logged (A : Type) : Type := (A * list (nat * Call))%type.

(** Reading a logged value. *)
Abbreviation verdict r := (fst r).
Abbreviation callsMade r := (snd r).

Definition ret {A : Type} (a : A) : Logged A := (a, []).

Definition bind {A B : Type} (m : Logged A) (f : A -> Logged B) : Logged B :=
  let (a, t1) := m in let (b, t2) := f a in (b, t1 ++ t2).

(** [call i c v]: method [c] called on layer [i] answered [v]. *)
Definition call {A : Type} (i : nat) (c : Call) (v : A) : Logged A := (v, [(i, c)]).

Notation "x <- m ;; k" := (bind m (fun x => k))
  (at level 61, m at next level, right associativity).

(** What the body of the [for] loop does next. *)
Inductive Flow : Type :=
| Continue
| ReturnFalse.

Section Frame.

(** [MapFrame::isCached] only hands the key on to the layers, and only
    compares the map's cache pointer with null. *)
Context {TileKey Cache : Type}.

(** The part of [TileSource] read here: [getBlacklist()->contains(key)]. *)
Record TileSource : Type := mkTileSource {
  blacklistContains : TileKey -> bool
}.

(** The part of [TerrainLayer] read here.  [layerIsCached] is
    [TerrainLayer::isCached]. *)
Record TerrainLayer : Type := mkTerrainLayer {
  getEnabled : bool;
  cachePolicy : CachePolicy;
  mayHaveData : TileKey -> bool;
  getTileSource : option TileSource;
  layerIsCached : TileKey -> bool
}.

(** An entry of [LayerVector]: a terrain layer, or a layer of another kind,
    for which [dynamic_cast<TerrainLayer*>] gives null. *)
Inductive Layer : Type :=
| IsTerrainLayer (layer : TerrainLayer)
| OtherLayer.

Definition dynamic_cast_TerrainLayer (l : Layer) : option TerrainLayer :=
  match l with
  | IsTerrainLayer layer => Some layer
  | OtherLayer => None
  end.

Record Map : Type := mkMap {
  getCache : option Cache
}.

(** [_map] is an observer pointer: [None] when [_map.lock(map)] fails. *)
Record MapFrame : Type := mkMapFrame {
  _map : option Map;
  _layers : list Layer
}.

(** The body of the [for] loop of [MapFrame::isCached] for one terrain
    layer. *)
Definition examineLayer (key : TileKey) (i : nat) (layer : TerrainLayer)
    : Logged Flow :=
  enabled <- call i GetEnabled (getEnabled layer) ;;
  if negb enabled then ret Continue else
  (* If we're cache only we should be fast *)
  cacheOnly <- call i IsCacheOnly (isCacheOnly (cachePolicy layer)) ;;
  if cacheOnly then ret Continue else
  (* no-cache? always slow *)
  cacheDisabled <- call i IsCacheDisabled (isCacheDisabled (cachePolicy layer)) ;;
  if cacheDisabled then ret ReturnFalse else
  (* If no data is available on this tile, we'll be fast *)
  hasData <- call i MayHaveData (mayHaveData layer key) ;;
  if negb hasData then ret Continue else
  (* No tile source? skip it *)
  source <- call i GetTileSource (getTileSource layer) ;;
  match source with
  | None => ret Continue
  | Some src =>
      (* If the tile is blacklisted, it should also be fast. *)
      blacklisted <- call i BlacklistContains (blacklistContains src key) ;;
      if blacklisted then ret Continue else
      cached <- call i LayerIsCached (layerIsCached layer key) ;;
      if negb cached then ret ReturnFalse else ret Continue
  end.

(** The [for] loop over [_layers], from position [i] on. *)
Fixpoint layersLoop (key : TileKey) (i : nat) (layers : list Layer)
    : Logged bool :=
  match layers with
  | [] => ret true
  | l :: rest =>
      match dynamic_cast_TerrainLayer l with
      | Some layer =>
          flow <- examineLayer key i layer ;;
          match flow with
          | ReturnFalse => ret false
          | Continue => layersLoop key (S i) rest
          end
      | None => layersLoop key (S i) rest
      end
  end.

(** The condition [_map.lock(map) && map->getCache() == 0L]: the map is
    alive and has no cache. *)
Definition mapWithoutCache (mf : MapFrame) : bool :=
  match _map mf with
  | Some map => match getCache map with None => true | Some _ => false end
  | None => false
  end.

(** [MapFrame::isCached]. *)
Definition isCached (mf : MapFrame) (key : TileKey) : Logged bool :=
  (* is there a map cache at all? *)
  if mapWithoutCache mf then ret false
  else layersLoop key 0 (_layers mf).

(** ** The seven rules, stated apart from the loop *)

Inductive Rule : Type :=
| LayerDisabled       (* 1 *)
| PolicyCacheOnly     (* 2 *)
| PolicyCacheDisabled (* 3 *)
| NoDataAtKey         (* 4 *)
| NoTileSource        (* 5 *)
| KeyBlacklisted      (* 6 *)
| CachePresence.      (* 7 *)

Definition priorityOrder : list Rule :=
  [LayerDisabled; PolicyCacheOnly; PolicyCacheDisabled; NoDataAtKey;
   NoTileSource; KeyBlacklisted; CachePresence].

(** When a rule applies to a layer at a key, taken on its own. *)
Definition applies (key : TileKey) (layer : TerrainLayer) (r : Rule) : bool :=
  match r with
  | LayerDisabled => negb (getEnabled layer)
  | PolicyCacheOnly => isCacheOnly (cachePolicy layer)
  | PolicyCacheDisabled => isCacheDisabled (cachePolicy layer)
  | NoDataAtKey => negb (mayHaveData layer key)
  | NoTileSource =>
      match getTileSource layer with None => true | Some _ => false end
  | KeyBlacklisted =>
      match getTileSource layer with
      | None => false
      | Some src => blacklistContains src key
      end
  | CachePresence => true
  end.

Definition firstApplicable (key : TileKey) (layer : TerrainLayer) : Rule :=
  match find (applies key layer) priorityOrder with
  | Some r => r
  | None => CachePresence
  end.

(** What a rule decides for the layer it applies to. *)
Definition ruling (key : TileKey) (layer : TerrainLayer) (r : Rule) : Flow :=
  match r with
  | PolicyCacheDisabled => ReturnFalse
  | CachePresence => if layerIsCached layer key then Continue else ReturnFalse
  | _ => Continue
  end.

(** The method behind each rule. *)
Definition checkOf (r : Rule) : Call :=
  match r with
  | LayerDisabled => GetEnabled
  | PolicyCacheOnly => IsCacheOnly
  | PolicyCacheDisabled => IsCacheDisabled
  | NoDataAtKey => MayHaveData
  | NoTileSource => GetTileSource
  | KeyBlacklisted => BlacklistContains
  | CachePresence => LayerIsCached
  end.

Definition Rule_eqb (a b : Rule) : bool :=
  match a, b with
  | LayerDisabled, LayerDisabled
  | PolicyCacheOnly, PolicyCacheOnly
  | PolicyCacheDisabled, PolicyCacheDisabled
  | NoDataAtKey, NoDataAtKey
  | NoTileSource, NoTileSource
  | KeyBlacklisted, KeyBlacklisted
  | CachePresence, CachePresence => true
  | _, _ => false
  end.

(** The rules of a list up to and including [r]. *)
Fixpoint upTo (r : Rule) (rules : list Rule) : list Rule :=
  match rules with
  | [] => []
  | x :: rest => x :: (if Rule_eqb x r then [] else upTo r rest)
  end.

(** The checks made on layer [i] when [r] is its first applicable rule:
    those of the rules before [r] and of [r], none after. *)
Definition checksFor (i : nat) (r : Rule) : list (nat * Call) :=
  List.map (fun x => (i, checkOf x)) (upTo r priorityOrder).

(** The verdict by the rules: each terrain layer is decided by its first
    applicable rule, and the first layer decided [ReturnFalse] ends the
    evaluation. *)
Fixpoint verdictByRules (key : TileKey) (i : nat) (layers : list Layer)
    : Logged bool :=
  match layers with
  | [] => (true, [])
  | OtherLayer :: rest => verdictByRules key (S i) rest
  | IsTerrainLayer layer :: rest =>
      let r := firstApplicable key layer in
      match ruling key layer r with
      | ReturnFalse => (false, checksFor i r)
      | Continue =>
          (fst (verdictByRules key (S i) rest),
           checksFor i r ++ snd (verdictByRules key (S i) rest))
      end
  end.

End Frame.

End MapFrame.

(* ===================================================================== *)
(** * A concrete world to run the definitions in *)
(* ===================================================================== *)

Module Sample.

Import TileBuilder.

(** Profiles that are nothing but their type; [operator!=] compares the
    types. *)
#[export] Instance profiles : Profiles := {|
  TileGridProfile := ProfileType;
  profileType := fun p => p;
  profile_neq := fun a b => negb (ProfileType_eqb a b)
|}.

(** An image is a number; a heightfield is (columns, rows, payload).
    Extraction keeps the sizes it is asked for and records the child's
    level in the payload. *)
#[export] Instance rasters : Rasters := {|
  Image := nat;
  HeightField := (N * N * nat)%type;
  getNumColumns := fun hf => fst (fst hf);
  getNumRows := fun hf => snd (fst hf);
  extractChild := fun _ hf child w h => (w, h, 100 * snd hf + level child)
|}.

Definition key (l c r : nat) : TileKey := mkTileKey l c r GLOBAL_GEODETIC.

(** A source with data down to level [deepest] only: the image at a key is
    its level, the heightfield is 16 by 8 with the level as payload. *)
Definition sourceDownTo (name : string) (p : ProfileType) (deepest : nat)
    : TileSource :=
  mkTileSource name p
    (fun k => if level k <=? deepest then Some (level k) else None)
    (fun k => if level k <=? deepest then Some (16%N, 8%N, level k) else None).

(** A source with no data anywhere. *)
Definition emptySource (name : string) (p : ProfileType) : TileSource :=
  mkTileSource name p (fun _ => None) (fun _ => None).

Definition geodeticA : TileSource := sourceDownTo "geodetic-a" GLOBAL_GEODETIC 1.
Definition mercatorB : TileSource := sourceDownTo "mercator-b" GLOBAL_MERCATOR 1.
Definition geodeticC : TileSource := sourceDownTo "geodetic-c" GLOBAL_GEODETIC 1.
Definition projectedD : TileSource := sourceDownTo "projected-d" PROJECTED 1.

Definition geocentric : MapConfig := mkMapConfig CSTYPE_GEOCENTRIC.

(** A builder that has not computed its profile yet and has no override. *)
Definition builder (images heightfields : TileSourceList) : TileBuilder :=
  mkTileBuilder geocentric images heightfields false UNKNOWN.

(** Map frames over keys that are plain numbers. *)
Definition Frame : Type := @MapFrame.MapFrame nat unit.

Definition cachedLayer : @MapFrame.TerrainLayer nat :=
  MapFrame.mkTerrainLayer true MapFrame.Normal (fun _ => true)
    (Some (MapFrame.mkTileSource (fun _ => false))) (fun _ => true).

Definition uncachedLayer : @MapFrame.TerrainLayer nat :=
  MapFrame.mkTerrainLayer true MapFrame.Normal (fun _ => true)
    (Some (MapFrame.mkTileSource (fun _ => false))) (fun _ => false).

Definition noCacheLayer : @MapFrame.TerrainLayer nat :=
  MapFrame.mkTerrainLayer true MapFrame.CacheDisabled (fun _ => true)
    (Some (MapFrame.mkTileSource (fun _ => false))) (fun _ => true).

Definition disabledLayer : @MapFrame.TerrainLayer nat :=
  MapFrame.mkTerrainLayer false MapFrame.CacheDisabled (fun _ => true)
    None (fun _ => false).

(** A live map with a cache, a live map without one, and a map that is
    gone. *)
Definition withCache (layers : list (@MapFrame.Layer nat)) : Frame :=
  MapFrame.mkMapFrame (Some (MapFrame.mkMap (Some tt))) layers.

Definition withoutCache (layers : list (@MapFrame.Layer nat)) : Frame :=
  MapFrame.mkMapFrame (Some (MapFrame.mkMap None)) layers.

Definition mapGone (layers : list (@MapFrame.Layer nat)) : Frame :=
  MapFrame.mkMapFrame None layers.

End Sample.

(* ===================================================================== *)
(** * TileBuilder.cpp: construction, registry and URIs *)
(* ===================================================================== *)

Module TileBuilderSetup.

Import TileBuilder.

(** The part of [osgDB::ReaderWriter::Options] that [TileBuilder::create]
    reads and writes: the option string.  A freshly made [Options] has the
    empty string. *)
Record Options : Type := mkOptions {
  getOptionString : string
}.

Section Setup.

Context `{RS : Rasters}.

(** [CacheConfig] is only handed on to the cache factory. *)
Variable CacheConfig : Type.

(** [SourceConfig], as [addSources] reads it. *)
Record SourceConfig : Type := mkSourceConfig {
  sourceName : string;                         (* getName() *)
  sourceDriver : string;                       (* getDriver() *)
  sourceProperties : list (string * string);   (* getProperties() *)
  sourceCacheConfig : option CacheConfig       (* getCacheConfig() *)
}.

(** [MapConfig], as the constructor, [addSources] and [create] read it. *)
Record MapDescription : Type := mkMapDescription {
  mapCoordinateSystemType : CoordinateSystemType; (* getCoordinateSystemType() *)
  getCacheOnly : bool;
  mapCacheConfig : option CacheConfig;            (* getCacheConfig() *)
  mapProfile : string;                            (* getProfile() *)
  getImageSources : list SourceConfig;
  getHeightFieldSources : list SourceConfig;
  getProxyHost : string;
  getProxyPort : N;
  getFilename : string
}.

(** The [MapConfig] of the builder record, as [isValid] reads it. *)
Definition asMapConfig (m : MapDescription) : MapConfig :=
  mkMapConfig (mapCoordinateSystemType m).

(** What lies outside [src/]:
    - [loadTileSource global_options mapConfig source]: the plugin found by
      [osgDB::readObjectFile(".osgearth_" + driver, local_options)], cast to
      a [TileSource] and initialised with [init(local_options)]; the local
      options are made from the global ones, the source's properties and the
      map configuration;
    - [createCachedSource tile_source cacheConfig global_options mapConfig
      source]: what [CachedTileSourceFactory::create] makes around a (maybe
      null) tile source, after its [init], [setName],
      [setMapConfigFilename] and [initTileMap];
    - [profileOfType]: the constructor [TileGridProfile(ProfileType)];
    - [STR_GLOBAL_MERCATOR], [STR_GLOBAL_GEODETIC]: the profile names;
    - [str]: [TileKey::str()];
    - [showPort]: the proxy port as [operator<<] writes it. *)
Variable loadTileSource :
  option Options -> MapDescription -> SourceConfig -> option TileSource.
Variable createCachedSource :
  option TileSource -> CacheConfig -> option Options -> MapDescription ->
  SourceConfig -> option TileSource.
Variable profileOfType : ProfileType -> TileGridProfile.
Variable STR_GLOBAL_MERCATOR : string.
Variable STR_GLOBAL_GEODETIC : string.
Variable str : TileKey -> string.
Variable showPort : N -> string.

(** A source whose profile is not of type [UNKNOWN]. *)
Definition knownProfile (s : TileSource) : Prop :=
  profileType (getProfile s) <> UNKNOWN.

(** [TileSource::setName]. *)
Definition setName (name : string) (ts : TileSource) : TileSource :=
  mkTileSource name (getProfile ts) (createImage ts) (createHeightField ts).

(** One turn of the loop of [addSources], up to the test before
    [push_back]: the pointer [sourceToAdd]. *)
Definition sourceToAdd (mapConfig : MapDescription)
    (global_options : option Options) (source : SourceConfig)
    : option TileSource :=
  (* Only load the source if we are not running offline *)
  let tile_source :=
    if negb (getCacheOnly mapConfig)
    then loadTileSource global_options mapConfig source
    else None in
  (* Initialize the source and set its name *)
  let tile_source := option_map (setName (sourceName source)) tile_source in
  (* Configure the cache if necessary *)
  let cacheConfig :=
    match sourceCacheConfig source with
    | Some c => Some c
    | None => mapCacheConfig mapConfig
    end in
  match cacheConfig with
  | Some c =>
      (* wrap the TileSource with a caching TileSource *)
      match createCachedSource tile_source c global_options mapConfig source with
      | Some cache => Some cache
      | None => tile_source
      end
  | None => tile_source
  end.

(** What one source configuration contributes to the vector: the source
    to add, when there is one and its profile is known. *)
Definition contribution (mapConfig : MapDescription)
    (global_options : option Options) (source : SourceConfig)
    : TileSourceList :=
  match sourceToAdd mapConfig global_options source with
  | Some s =>
      if negb (ProfileType_eqb (profileType (getProfile s)) UNKNOWN)
      then [s] else []
  | None => []
  end.

(** The static function [addSources]: the vector [to] after the call. *)
Fixpoint addSources (mapConfig : MapDescription) (from : list SourceConfig)
    (to : TileSourceList) (url_template : string)
    (global_options : option Options) : TileSourceList :=
  match from with
  | [] => to
  | source :: rest =>
      let to' :=
        match sourceToAdd mapConfig global_options source with
        | Some s =>
            if negb (ProfileType_eqb (profileType (getProfile s)) UNKNOWN)
            then to ++ [s]
            else (* Skipping TileSource with unknown profile *) to
        | None => to
        end in
      addSources mapConfig rest to' url_template global_options
  end.

(** The constructor [TileBuilder::TileBuilder], for a valid [_map] (with a
    null one the source reads [map->getProfile()] through the null
    pointer). *)
Definition newTileBuilder (_map : MapDescription) (_url_template : string)
    (options : option Options) : TileBuilder :=
  let images := addSources _map (getImageSources _map) [] _url_template options in
  let heightfields :=
    addSources _map (getHeightFieldSources _map) [] _url_template options in
  let dataProfile :=
    if String.eqb (mapProfile _map) STR_GLOBAL_MERCATOR then
      (* Overriding profile to GLOBAL_MERCATOR *)
      profileOfType GLOBAL_MERCATOR
    else if String.eqb (mapProfile _map) STR_GLOBAL_GEODETIC then
      (* Overriding profile to GLOBAL_GEODETIC *)
      profileOfType GLOBAL_GEODETIC
    else profileOfType UNKNOWN in
  mkTileBuilder (asMapConfig _map) images heightfields false dataProfile.

(** [TileBuilder::createURI], for a builder made with [url_template]. *)
Definition createURI (url_template : string) (key : TileKey) : string :=
  (str key ++ "." ++ url_template)%string.

(** ** The registry of builders *)

(** The two subclasses of [TileBuilder] are declared outside [src/]; what
    [create] makes is one of them, from the arguments it passes on. *)
Variable Builder : Type.
Variable newGeocentricTileBuilder :
  MapDescription -> string -> option Options -> Builder.
Variable newProjectedTileBuilder :
  MapDescription -> string -> option Options -> Builder.

(** [TileBuilderMap], the static [s_tile_builders]: a template without an
    entry gives [None], an entry may hold a null pointer. *)
Definition TileBuilderMap : Type := string -> option (option Builder).

(** [s_tile_builders[url_template] = result]. *)
Definition store (registry : TileBuilderMap) (url_template : string)
    (result : option Builder) : TileBuilderMap :=
  fun k => if String.eqb k url_template then Some result else registry k.

(** The options [create] hands to the builder when it is called without
    options of its own: none, unless the map names a proxy. *)
Definition proxyOptions (map : MapDescription) : option Options :=
  let local_options : option Options := None in
  (* transcribe proxy settings *)
  if negb (String.eqb (getProxyHost map) "") then
    let local_options :=
      match local_options with
      | Some o => o
      | None => mkOptions ""
      end in
    Some (mkOptions (getOptionString local_options
                     ++ "OSG_CURL_PROXY=" ++ getProxyHost map ++ " "
                     ++ "OSG_CURL_PROXYPORT=" ++ showPort (getProxyPort map)))
  else local_options.

(** [TileBuilder::create] called with a null [options] pointer, as
    [readNode] calls it: the pointer returned and [s_tile_builders] after the
    call.  (With options given, the source initialises [local_options] from
    [local_options] itself; that call is not modelled.) *)
Definition create (registry : TileBuilderMap) (map : option MapDescription)
    (url_template : string) : option Builder * TileBuilderMap :=
  let result :=
    match map with
    | Some m =>
        let local_options := proxyOptions m in
        match mapCoordinateSystemType m with
        | CSTYPE_GEOCENTRIC =>
            Some (newGeocentricTileBuilder m url_template local_options)
        | CSTYPE_PROJECTED =>
            Some (newProjectedTileBuilder m url_template local_options)
        end
    | None => None
    end in
  (* Cache the tile builder *)
  (result, store registry url_template result).

(** [TileBuilder::getTileBuilderByUrlTemplate]. *)
Definition getTileBuilderByUrlTemplate (registry : TileBuilderMap)
    (url_template : string) : option Builder :=
  match registry url_template with
  | Some k => k
  | None => None
  end.

End Setup.

Arguments mkSourceConfig {CacheConfig}.
Arguments sourceName {CacheConfig}.
Arguments sourceDriver {CacheConfig}.
Arguments sourceProperties {CacheConfig}.
Arguments sourceCacheConfig {CacheConfig}.
Arguments mkMapDescription {CacheConfig}.
Arguments mapCoordinateSystemType {CacheConfig}.
Arguments getCacheOnly {CacheConfig}.
Arguments mapCacheConfig {CacheConfig}.
Arguments mapProfile {CacheConfig}.
Arguments getImageSources {CacheConfig}.
Arguments getHeightFieldSources {CacheConfig}.
Arguments getProxyHost {CacheConfig}.
Arguments getProxyPort {CacheConfig}.
Arguments getFilename {CacheConfig}.
Arguments asMapConfig {CacheConfig}.
Arguments sourceToAdd {_ _ CacheConfig}.
Arguments contribution {_ _ CacheConfig}.
Arguments addSources {_ _ CacheConfig}.
Arguments newTileBuilder {_ _ CacheConfig}.
Arguments proxyOptions {CacheConfig}.
Arguments store {Builder}.
Arguments create {CacheConfig} _ {Builder}.
Arguments getTileBuilderByUrlTemplate {Builder}.

(** A list made from another by leaving elements out, the rest in their
    order. *)
Inductive Subsequence {A : Type} : list A -> list A -> Prop :=
| Subsequence_nil : Subsequence [] []
| Subsequence_keep (x : A) (l1 l2 : list A) :
    Subsequence l1 l2 -> Subsequence (x :: l1) (x :: l2)
| Subsequence_drop (x : A) (l1 l2 : list A) :
    Subsequence l1 l2 -> Subsequence l1 (x :: l2).

End TileBuilderSetup.

(* ===================================================================== *)
(** * MapFrame.cpp: the frame and its life cycle *)
(* ===================================================================== *)

Module MapFrameState.

Section State.

Context {TileKey Cache : Type}.

(** The elevation pool is only passed around. *)
Variable ElevationPool : Type.

(** A layer as [MapFrame] sees it: its UID, and what the two
    [dynamic_cast]s of [refreshComputedValues] find.  A terrain layer has the
    answers [isCached] asks for, its [options().minLevel()] (an optional
    unsigned) and may be an elevation layer. *)
Inductive LayerClass : Type :=
| NotTerrain
| Terrain (layer : @MapFrame.TerrainLayer TileKey) (minLevel : option N)
    (isElevationLayer : bool).

Record LayerObject : Type := mkLayerObject {
  getUID : Z;
  layerClass : LayerClass
}.

(** The layer as [MapFrame::isCached] reads it. *)
Definition asLayer (l : LayerObject) : @MapFrame.Layer TileKey :=
  match layerClass l with
  | NotTerrain => MapFrame.OtherLayer
  | Terrain layer _ _ => MapFrame.IsTerrainLayer layer
  end.

(** [dynamic_cast<ElevationLayer*>] after [dynamic_cast<TerrainLayer*>]. *)
Definition isElevation (l : LayerObject) : bool :=
  match layerClass l with
  | Terrain _ _ true => true
  | _ => false
  end.

(** [options().minLevel()] of a terrain layer, when it is set. *)
Definition minLevelOf (l : LayerObject) : option N :=
  match layerClass l with
  | Terrain _ minLevel _ => minLevel
  | NotTerrain => None
  end.

(** A layer that lets the loop of [isCached] go on: not a terrain layer,
    or a terrain layer whose first applicable rule does not rule false. *)
Definition letsPass (key : TileKey) (l : @MapFrame.Layer TileKey) : bool :=
  match l with
  | MapFrame.OtherLayer => true
  | MapFrame.IsTerrainLayer layer =>
      match MapFrame.ruling key layer (MapFrame.firstApplicable key layer) with
      | MapFrame.Continue => true
      | MapFrame.ReturnFalse => false
      end
  end.

(** The part of [Map] read here. *)
Record MapObject : Type := mkMapObject {
  mapCache : option Cache;               (* getCache() *)
  getDataModelRevision : Z;
  mapUID : Z;                            (* getUID() *)
  getElevationPool : option ElevationPool
}.

(** The members of [MapFrame].  [_map] is an observer pointer, [None] when
    null or when the map is gone; [_mapInfo] is kept as the map it was last
    made from. *)
Record MapFrame : Type := mkMapFrame {
  _initialized : bool;
  _map : option MapObject;
  _mapInfo : option MapObject;
  _highestMinLevel : N;
  _mapDataModelRevision : Z;
  _layers : list LayerObject;
  _elevationLayers : list LayerObject;
  _pool : option ElevationPool
}.

(** [Map::sync(MapFrame&)] lies outside [src/]: whether the frame changed,
    and the frame after. *)
Variable Map_sync : MapObject -> MapFrame -> bool * MapFrame.

(** The copy constructor.  [_elevationLayers] is not among the members it
    copies. *)
Definition copy (rhs : MapFrame) : MapFrame :=
  mkMapFrame (_initialized rhs) (_map rhs) (_mapInfo rhs)
    (_highestMinLevel rhs) (_mapDataModelRevision rhs) (_layers rhs)
    [] (_pool rhs).

(** [MapFrame::isValid]. *)
Definition isValid (f : MapFrame) : bool :=
  match _map f with Some _ => true | None => false end.

(** [MapFrame::refreshComputedValues]. *)
Fixpoint refreshLoop (layers : list LayerObject) (highestMinLevel : N)
    (elevationLayers : list LayerObject) : N * list LayerObject :=
  match layers with
  | [] => (highestMinLevel, elevationLayers)
  | i :: rest =>
      match layerClass i with
      | Terrain _ minLevel elevation =>
          let highestMinLevel :=
            match minLevel with
            | Some value =>
                if N.ltb highestMinLevel value then value
                else highestMinLevel
            | None => highestMinLevel
            end in
          let elevationLayers :=
            if elevation then elevationLayers ++ [i] else elevationLayers in
          refreshLoop rest highestMinLevel elevationLayers
      | NotTerrain => refreshLoop rest highestMinLevel elevationLayers
      end
  end.

Definition refreshComputedValues (f : MapFrame) : MapFrame :=
  let (highest, elevations) := refreshLoop (_layers f) 0%N [] in
  mkMapFrame (_initialized f) (_map f) (_mapInfo f) highest
    (_mapDataModelRevision f) (_layers f) elevations (_pool f).

(** [MapFrame::sync]: the value returned and the frame after. *)
Definition sync (f : MapFrame) : bool * MapFrame :=
  match _map f with
  | Some map =>
      let (changed, f1) := Map_sync map f in
      let f2 := if changed then refreshComputedValues f1 else f1 in
      (changed,
       mkMapFrame (_initialized f2) (_map f2) (_mapInfo f2)
         (_highestMinLevel f2) (_mapDataModelRevision f2) (_layers f2)
         (_elevationLayers f2) (getElevationPool map))
  | None =>
      (true,
       mkMapFrame (_initialized f) (_map f) (_mapInfo f)
         (_highestMinLevel f) (_mapDataModelRevision f) [] [] (_pool f))
  end.

(** [MapFrame::setMap]: the frame after. *)
Definition setMap (f : MapFrame) (map : option MapObject) : MapFrame :=
  let f1 :=
    mkMapFrame false map
      (match map with Some m => Some m | None => _mapInfo f end)
      0%N (_mapDataModelRevision f) [] (_elevationLayers f) None in
  match map with
  | Some _ => snd (sync f1)
  | None => f1
  end.

(** [MapFrame::needsSync]. *)
Definition needsSync (f : MapFrame) : bool :=
  if negb (isValid f) then false
  else
    match _map f with
    | Some map =>
        negb (Z.eqb (getDataModelRevision map) (_mapDataModelRevision f))
        || negb (_initialized f)
    | None => false
    end.

(** [MapFrame::release]: the frame after. *)
Definition release (f : MapFrame) : MapFrame :=
  mkMapFrame false (_map f) (_mapInfo f) 0%N (_mapDataModelRevision f)
    [] (_elevationLayers f) None.

(** [MapFrame::getUID]. *)
Definition frameUID (f : MapFrame) : Z :=
  match _map f with
  | Some map => mapUID map
  | None => 0%Z
  end.

(** [MapFrame::containsLayer]. *)
Fixpoint containsLayerFrom (layers : list LayerObject) (uid : Z) : bool :=
  match layers with
  | [] => false
  | i :: rest =>
      if Z.eqb (getUID i) uid then true else containsLayerFrom rest uid
  end.

Definition containsLayer (f : MapFrame) (uid : Z) : bool :=
  containsLayerFrom (_layers f) uid.

(** The members [MapFrame::isCached] reads, in the shape it was given
    above. *)
Definition cacheView (f : MapFrame) : @MapFrame.MapFrame TileKey Cache :=
  MapFrame.mkMapFrame
    (option_map (fun m => MapFrame.mkMap (mapCache m)) (_map f))
    (List.map asLayer (_layers f)).

(** [MapFrame::isCached] on the whole frame. *)
Definition isCached (f : MapFrame) (key : TileKey)
    : MapFrame.Logged bool :=
  MapFrame.isCached (cacheView f) key.

End State.

Arguments MapObject {Cache}.
Arguments mkMapObject {Cache ElevationPool}.
Arguments mapCache {Cache ElevationPool}.
Arguments getDataModelRevision {Cache ElevationPool}.
Arguments mapUID {Cache ElevationPool}.
Arguments getElevationPool {Cache ElevationPool}.
Arguments MapFrame {TileKey Cache}.
Arguments mkMapFrame {TileKey Cache ElevationPool}.
Arguments _initialized {TileKey Cache ElevationPool}.
Arguments _map {TileKey Cache ElevationPool}.
Arguments _mapInfo {TileKey Cache ElevationPool}.
Arguments _highestMinLevel {TileKey Cache ElevationPool}.
Arguments _mapDataModelRevision {TileKey Cache ElevationPool}.
Arguments _layers {TileKey Cache ElevationPool}.
Arguments _elevationLayers {TileKey Cache ElevationPool}.
Arguments _pool {TileKey Cache ElevationPool}.
Arguments copy {TileKey Cache ElevationPool}.
Arguments isValid {TileKey Cache ElevationPool}.
Arguments refreshComputedValues {TileKey Cache ElevationPool}.
Arguments sync {TileKey Cache ElevationPool}.
Arguments setMap {TileKey Cache ElevationPool}.
Arguments needsSync {TileKey Cache ElevationPool}.
Arguments release {TileKey Cache ElevationPool}.
Arguments frameUID {TileKey Cache ElevationPool}.
Arguments containsLayer {TileKey Cache ElevationPool}.
Arguments cacheView {TileKey Cache ElevationPool}.
Arguments isCached {TileKey Cache ElevationPool}.

End MapFrameState.

(* ===================================================================== *)
(** * A concrete world for construction and the frame's life cycle *)
(* ===================================================================== *)

Module SampleSetup.

Import TileBuilder TileBuilderSetup Sample.

Open Scope string_scope.

(** Drivers are found by name; an unknown driver fails to load, the driver
    "blank" loads a source whose profile is unknown. *)
Definition loadTileSource (_ : option Options) (_ : MapDescription unit)
    (source : SourceConfig unit) : option TileSource :=
  if String.eqb (sourceDriver source) "geodetic" then Some geodeticA
  else if String.eqb (sourceDriver source) "mercator" then Some mercatorB
  else if String.eqb (sourceDriver source) "projected" then Some projectedD
  else if String.eqb (sourceDriver source) "blank"
       then Some (sourceDownTo "blank" UNKNOWN 1)
  else None.

(** A cache wraps the source it is given; with none, it serves a geodetic
    source of its own with data at the root only. *)
Definition createCachedSource (tile_source : option TileSource) (_ : unit)
    (_ : option Options) (_ : MapDescription unit) (source : SourceConfig unit)
    : option TileSource :=
  match tile_source with
  | Some s => Some s
  | None => Some (sourceDownTo (sourceName source) GLOBAL_GEODETIC 0)
  end.

Definition profileOfType (t : ProfileType) : ProfileType := t.
Definition STR_GLOBAL_MERCATOR : string := "global-mercator".
Definition STR_GLOBAL_GEODETIC : string := "global-geodetic".

Definition config (name driver : string) : SourceConfig unit :=
  mkSourceConfig name driver [] None.

(** A geocentric map with three image sources, one of them failing to load
    and one of unknown profile, and one heightfield source. *)
Definition sampleMap (profile : string) (cacheOnly : bool)
    : MapDescription unit :=
  mkMapDescription CSTYPE_GEOCENTRIC cacheOnly None profile
    [config "a" "geodetic"; config "x" "missing"; config "u" "blank";
     config "b" "mercator"]
    [config "h" "geodetic"]
    "" 0%N "sample.earth".

(** A geocentric map that names the mercator profile and has a single,
    geodetic, image source. *)
Definition mercatorMapWithGeodeticSource : MapDescription unit :=
  mkMapDescription CSTYPE_GEOCENTRIC false None "global-mercator"
    [config "a" "geodetic"] [] "" 0%N "sample.earth".

Definition newSampleBuilder (map : MapDescription unit) : TileBuilder :=
  newTileBuilder loadTileSource createCachedSource profileOfType
    STR_GLOBAL_MERCATOR STR_GLOBAL_GEODETIC map "sample.earth" None.

(** Frames over numeric keys, a unit cache and a unit elevation pool. *)
Definition LayerObject : Type := @MapFrameState.LayerObject nat.
Definition Frame : Type := @MapFrameState.MapFrame nat unit unit.

Definition elevation (uid : Z) (minLevel : option N) : LayerObject :=
  MapFrameState.mkLayerObject uid
    (MapFrameState.Terrain cachedLayer minLevel true).

Definition imagery (uid : Z) (minLevel : option N) : LayerObject :=
  MapFrameState.mkLayerObject uid
    (MapFrameState.Terrain uncachedLayer minLevel false).

Definition annotation (uid : Z) : LayerObject :=
  MapFrameState.mkLayerObject uid MapFrameState.NotTerrain.

Definition sampleLayers : list LayerObject :=
  [imagery 1 (Some 3%N); annotation 2; elevation 3 None;
   elevation 4 (Some 5%N); imagery 5 (Some 2%N)].

Definition liveMap : @MapFrameState.MapObject unit unit :=
  MapFrameState.mkMapObject (Some tt) 7%Z 42%Z (Some tt).

(** A [Map::sync] that installs the sample layers and the map's revision,
    and reports a change when the revision differs. *)
Definition Map_sync (map : @MapFrameState.MapObject unit unit) (f : Frame)
    : bool * Frame :=
  (negb (Z.eqb (MapFrameState.getDataModelRevision map)
           (MapFrameState._mapDataModelRevision f)),
   MapFrameState.mkMapFrame true (MapFrameState._map f)
     (MapFrameState._mapInfo f) (MapFrameState._highestMinLevel f)
     (MapFrameState.getDataModelRevision map) sampleLayers
     (MapFrameState._elevationLayers f) (MapFrameState._pool f)).

Definition frameOf (map : option (@MapFrameState.MapObject unit unit))
    (layers : list LayerObject) : Frame :=
  MapFrameState.mkMapFrame false map map 9%N 0%Z layers
    [elevation 8 None] None.

End SampleSetup.

(** Splits a conjunction into its conjuncts, leaving equivalences whole. *)
Ltac split_ands := repeat match goal with |- _ /\ _ => split end.

(* ===================================================================== *)
(** * Properties of TileBuilder.cpp *)
(* ===================================================================== *)

Module TileBuilderFacts.

Import TileBuilder.

Section Facts.

Context `{RS : Rasters}.

(** ** Parent keys *)

Lemma createParentKey_Some (k p : TileKey) :
  createParentKey k = Some p -> level k = S (level p).
Proof.
  unfold createParentKey. destruct (level k) as [|l] eqn:E; intro H0.
  - discriminate.
  - injection H0 as <-. reflexivity.
Qed.

Lemma createParentKey_None (k : TileKey) :
  createParentKey k = None <-> level k = 0.
Proof.
  unfold createParentKey. destruct (level k); split; congruence.
Qed.

Lemma chainFrom_step (n : nat) (k : TileKey) :
  level k = n ->
  chainFrom n k =
  k :: match createParentKey k with
       | Some p => chainFrom (level p) p
       | None => []
       end.
Proof.
  intros <-. destruct (level k) as [|l] eqn:E; simpl.
  - destruct (createParentKey k) as [p|] eqn:P; [|reflexivity].
    apply createParentKey_Some in P. congruence.
  - destruct (createParentKey k) as [p|] eqn:P; [|reflexivity].
    apply createParentKey_Some in P. replace (level p) with l by congruence.
    reflexivity.
Qed.

Lemma ancestorChain_step (k : TileKey) :
  ancestorChain k =
  k :: match createParentKey k with
       | Some p => ancestorChain p
       | None => []
       end.
Proof. unfold ancestorChain. now apply chainFrom_step. Qed.

Lemma nthParent_level (i : nat) : forall k k' : TileKey,
  nthParent i k = Some k' -> level k' + i = level k.
Proof.
  induction i as [|i IH]; simpl; intros k k' E.
  - injection E as <-. lia.
  - destruct (createParentKey k) as [p|] eqn:P; [|discriminate].
    apply createParentKey_Some in P. apply IH in E. lia.
Qed.

Lemma nthParent_defined (i : nat) : forall k : TileKey,
  i <= level k -> exists k', nthParent i k = Some k'.
Proof.
  induction i as [|i IH]; simpl; intros k Hi.
  - eauto.
  - destruct (createParentKey k) as [p|] eqn:P.
    + apply IH. apply createParentKey_Some in P. lia.
    + apply createParentKey_None in P. lia.
Qed.

Lemma nthParent_past_root (i : nat) (k : TileKey) :
  level k < i -> nthParent i k = None.
Proof.
  intro Hi. destruct (nthParent i k) as [k'|] eqn:E; [|reflexivity].
  apply nthParent_level in E. lia.
Qed.

(** The chain lists exactly the iterated parents, in order. *)
Lemma ancestorChain_nth (k : TileKey) (i : nat) :
  nth_error (ancestorChain k) i = nthParent i k.
Proof.
  remember (level k) as n eqn:Hk. revert k i Hk.
  induction n as [|n IH]; intros k i Hk; rewrite ancestorChain_step.
  - destruct (createParentKey k) as [p|] eqn:P.
    + apply createParentKey_Some in P. lia.
    + destruct i as [|i]; simpl; [reflexivity|]. rewrite P. now destruct i.
  - destruct (createParentKey k) as [p|] eqn:P.
    + destruct i as [|i]; simpl; [reflexivity|]. rewrite P.
      apply IH. apply createParentKey_Some in P. lia.
    + apply createParentKey_None in P. lia.
Qed.

Lemma ancestorChain_length (k : TileKey) :
  List.length (ancestorChain k) = S (level k).
Proof.
  remember (level k) as n eqn:Hn. revert k Hn.
  induction n as [|n IH]; intros k Hn; rewrite ancestorChain_step.
  - destruct (createParentKey k) as [p|] eqn:P; [|reflexivity].
    apply createParentKey_Some in P. lia.
  - destruct (createParentKey k) as [p|] eqn:P.
    + simpl. f_equal. apply IH. apply createParentKey_Some in P. lia.
    + apply createParentKey_None in P. lia.
Qed.

(** ** The loop follows the chain *)

Lemma parentLoop_chain {R : Type} (create : TileKey -> option R) :
  forall (n : nat) (k : TileKey), level k = n ->
  parentLoop create (Some k) =
  (firstSuccess create (ancestorChain k), untilSuccess create (ancestorChain k)).
Proof.
  induction n as [|n IH]; intros k Hk;
    rewrite ancestorChain_step; simp parentLoop; simpl;
    destruct (create k) as [r|] eqn:C; simpl; try reflexivity.
  - destruct (createParentKey k) as [p|] eqn:P.
    + apply createParentKey_Some in P. lia.
    + simp parentLoop. reflexivity.
  - destruct (createParentKey k) as [p|] eqn:P.
    + rewrite (IH p) by (apply createParentKey_Some in P; lia). reflexivity.
    + simp parentLoop. reflexivity.
Qed.

Lemma parentLoop_parent {R : Type} (create : TileKey -> option R) (k : TileKey) :
  parentLoop create (createParentKey k) =
  match createParentKey k with
  | Some p => (firstSuccess create (ancestorChain p),
               untilSuccess create (ancestorChain p))
  | None => (None, [])
  end.
Proof.
  destruct (createParentKey k) as [p|].
  - now apply parentLoop_chain with (n := level p).
  - simp parentLoop. reflexivity.
Qed.

(** ** First success along a list of keys *)

Section FirstSuccess.

Context {R : Type} (create : TileKey -> option R).

Lemma firstSuccess_None (keys : list TileKey) :
  firstSuccess create keys = None <->
  (forall k, In k keys -> create k = None).
Proof.
  induction keys as [|k rest IH]; simpl.
  - split; [intros _ k []|reflexivity].
  - destruct (create k) as [r|] eqn:C.
    + split; [discriminate|]. intro H0. specialize (H0 k (or_introl eq_refl)).
      congruence.
    + rewrite IH. split.
      * intros H0 k' [<-|Hin]; auto.
      * intros H0 k' Hin. apply H0. now right.
Qed.

(** A success is the answer at some position of the list, every position
    before it having failed. *)
Lemma firstSuccess_Some (keys : list TileKey) (r : R) (k : TileKey) :
  firstSuccess create keys = Some (r, k) <->
  exists n, nth_error keys n = Some k /\ create k = Some r /\
            forall i ki, i < n -> nth_error keys i = Some ki -> create ki = None.
Proof.
  revert r k. induction keys as [|k0 rest IH]; intros r k; simpl.
  - split; [discriminate|]. intros (n & Hn & _). now destruct n.
  - destruct (create k0) as [r0|] eqn:C.
    + split.
      * intro E. injection E as <- <-. exists 0. repeat split; auto.
        intros i ki Hi. lia.
      * intros ([|n] & Hn & Hr & Hbefore).
        -- simpl in Hn. injection Hn as <-. congruence.
        -- specialize (Hbefore 0 k0 (Nat.lt_0_succ n) eq_refl). congruence.
    + rewrite IH. split.
      * intros (n & Hn & Hr & Hbefore). exists (S n). repeat split; auto.
        intros [|i] ki Hi Hki; simpl in Hki.
        -- congruence.
        -- apply (Hbefore i); [lia|assumption].
      * intros ([|n] & Hn & Hr & Hbefore).
        -- simpl in Hn. congruence.
        -- exists n. repeat split; auto.
           intros i ki Hi Hki. apply (Hbefore (S i)); [lia|assumption].
Qed.

(** The keys asked are an initial segment of the list. *)
Lemma untilSuccess_nth (keys : list TileKey) : forall (i : nat) (k : TileKey),
  nth_error (untilSuccess create keys) i = Some k ->
  nth_error keys i = Some k /\
  forall j kj, j < i -> nth_error keys j = Some kj -> create kj = None.
Proof.
  induction keys as [|k0 rest IH]; intros i k; simpl.
  - now destruct i.
  - destruct i as [|i]; simpl.
    + intro E. split; [assumption|]. intros j kj Hj. lia.
    + destruct (create k0) as [r0|] eqn:C.
      * now destruct i.
      * intro E. apply IH in E as [E1 E2]. split; [assumption|].
        intros [|j] kj Hj Hkj; simpl in Hkj.
        -- congruence.
        -- apply (E2 j); [lia|assumption].
Qed.

Lemma untilSuccess_length (keys : list TileKey) :
  List.length (untilSuccess create keys) <= List.length keys.
Proof.
  induction keys as [|k0 rest IH]; simpl; [lia|].
  destruct (create k0); simpl; lia.
Qed.

Lemma untilSuccess_In (keys : list TileKey) (k : TileKey) :
  In k (untilSuccess create keys) -> In k keys.
Proof.
  intro Hin. apply In_nth_error in Hin as [i Hi].
  apply untilSuccess_nth in Hi as [Hi _]. eapply nth_error_In; eauto.
Qed.

(** On a success, the last key asked is the one that produced the result. *)
Lemma untilSuccess_last (keys : list TileKey) (r : R) (k d : TileKey) :
  firstSuccess create keys = Some (r, k) ->
  last (untilSuccess create keys) d = k.
Proof.
  induction keys as [|k0 rest IH]; simpl; [discriminate|].
  destruct (create k0) as [r0|] eqn:C.
  - intro E. now injection E as _ <-.
  - intro E. specialize (IH E).
    destruct (untilSuccess create rest) eqn:U; [|exact IH].
    destruct rest as [|k1 rest']; simpl in *; [discriminate|discriminate].
Qed.

End FirstSuccess.

(** ** The two resolvers along the chain *)

Lemma createValidImage_chain (tileSource : TileSource) (key : TileKey)
    (imageTile : ImageTileKeyPair) :
  createValidImage tileSource key imageTile =
  (match firstSuccess (createImage tileSource) (ancestorChain key) with
   | Some (image, k) => (true, (Some image, Some k))
   | None => (false, imageTile)
   end,
   untilSuccess (createImage tileSource) (ancestorChain key)).
Proof.
  unfold createValidImage. rewrite ancestorChain_step. simpl.
  destruct (createImage tileSource key) as [image|] eqn:C; [reflexivity|].
  rewrite parentLoop_parent.
  destruct (createParentKey key) as [p|]; simpl; [|reflexivity].
  destruct (firstSuccess (createImage tileSource) (ancestorChain p))
    as [[image k]|]; reflexivity.
Qed.

Lemma createValidHeightField_chain (tileSource : TileSource) (key : TileKey) :
  createValidHeightField tileSource key =
  (match createHeightField tileSource key with
   | Some hf => Some hf
   | None =>
       match firstSuccess (createHeightField tileSource) (ancestorChain key) with
       | Some (hf, k) =>
           Some (extractChild k hf key (getNumColumns hf) (getNumRows hf))
       | None => None
       end
   end,
   untilSuccess (createHeightField tileSource) (ancestorChain key)).
Proof.
  unfold createValidHeightField. rewrite ancestorChain_step. simpl.
  destruct (createHeightField tileSource key) as [hf|] eqn:C; [reflexivity|].
  rewrite parentLoop_parent.
  destruct (createParentKey key) as [p|]; simpl; [|reflexivity].
  destruct (firstSuccess (createHeightField tileSource) (ancestorChain p))
    as [[hf k]|]; reflexivity.
Qed.

Lemma In_ancestorChain (key k : TileKey) :
  In k (ancestorChain key) ->
  level k <= level key /\ exists n, nthParent n key = Some k.
Proof.
  intro Hin. apply In_nth_error in Hin as [n Hn].
  rewrite ancestorChain_nth in Hn.
  split; [|eauto]. apply nthParent_level in Hn. lia.
Qed.

Lemma firstSuccess_on_chain {R : Type} (create : TileKey -> option R)
    (key : TileKey) (r : R) (k : TileKey) :
  firstSuccess create (ancestorChain key) = Some (r, k) <->
  exists n, nthParent n key = Some k /\ create k = Some r /\
            forall i ki, i < n -> nthParent i key = Some ki -> create ki = None.
Proof.
  rewrite firstSuccess_Some. split; intros (n & Hn & Hr & Hbefore); exists n.
  - rewrite ancestorChain_nth in Hn. repeat split; auto.
    intros i ki Hi Hki. apply (Hbefore i); [assumption|].
    now rewrite ancestorChain_nth.
  - rewrite ancestorChain_nth. repeat split; auto.
    intros i ki Hi Hki. apply (Hbefore i); [assumption|].
    now rewrite ancestorChain_nth in Hki.
Qed.

Lemma chain_all_fail {R : Type} (create : TileKey -> option R) (key : TileKey) :
  (forall k, In k (ancestorChain key) -> create k = None) <->
  (forall n k, nthParent n key = Some k -> create k = None).
Proof.
  split.
  - intros H0 n k Hn. apply H0. apply nth_error_In with (n := n).
    now rewrite ancestorChain_nth.
  - intros H0 k Hin. apply In_nth_error in Hin as [n Hn].
    rewrite ancestorChain_nth in Hn. eauto.
Qed.

(** ** Ancestor resolution *)

(** C4.  Both resolvers ask the source at the requested key first and then
    at its successive parents, stop at the first key that produces data or
    when [createParentKey] gives nothing, and report "not found" exactly when
    every key of the chain up to the root has failed.  [createValidImage]
    returns the requested key as producing key exactly when the source
    produced the image at the requested key itself; a heightfield produced at
    the requested key is handed back after that single question. *)
Theorem ancestor_resolution_walks_chain (tileSource : TileSource)
    (key : TileKey) (imageTile : ImageTileKeyPair) :
  (* the chain is the requested key, then its iterated parents *)
  (forall i, nth_error (ancestorChain key) i = nthParent i key)
  (* the keys asked: the chain, cut after the first success *)
  /\ keysAsked (createValidImage tileSource key imageTile) =
     untilSuccess (createImage tileSource) (ancestorChain key)
  /\ keysAsked (createValidHeightField tileSource key) =
     untilSuccess (createHeightField tileSource) (ancestorChain key)
  (* success: the first key of the chain with data *)
  /\ (forall image k,
        outcome (createValidImage tileSource key imageTile)
          = (true, (Some image, Some k)) <->
        exists n, nthParent n key = Some k /\
                  createImage tileSource k = Some image /\
                  forall i ki, i < n -> nthParent i key = Some ki ->
                               createImage tileSource ki = None)
  (* not found: only when the whole chain failed *)
  /\ (returned (createValidImage tileSource key imageTile) = false <->
      forall n k, nthParent n key = Some k -> createImage tileSource k = None)
  /\ (outcome (createValidHeightField tileSource key) = None <->
      forall n k, nthParent n key = Some k ->
                  createHeightField tileSource k = None)
  (* a hit at the requested key is told apart from an ancestor hit *)
  /\ (forall image,
        createImage tileSource key = Some image ->
        createValidImage tileSource key imageTile
          = ((true, (Some image, Some key)), [key]))
  /\ (forall image k,
        outcome (createValidImage tileSource key imageTile)
          = (true, (Some image, Some k)) ->
        (k = key <-> createImage tileSource key = Some image))
  /\ (forall hf,
        createHeightField tileSource key = Some hf ->
        createValidHeightField tileSource key = (Some hf, [key])).
Proof.
  rewrite createValidImage_chain, createValidHeightField_chain. simpl.
  split_ands.
  - intro i. apply ancestorChain_nth.
  - reflexivity.
  - reflexivity.
  - intros image k. rewrite <- firstSuccess_on_chain.
    destruct (firstSuccess (createImage tileSource) (ancestorChain key))
      as [[image' k']|]; split; congruence.
  - rewrite <- chain_all_fail, <- firstSuccess_None.
    destruct (firstSuccess (createImage tileSource) (ancestorChain key))
      as [[image' k']|]; simpl; split; congruence.
  - rewrite <- chain_all_fail, <- firstSuccess_None.
    destruct (createHeightField tileSource key) as [hf|] eqn:C.
    + rewrite ancestorChain_step. simpl. rewrite C. split; discriminate.
    + destruct (firstSuccess (createHeightField tileSource) (ancestorChain key))
        as [[hf' k']|]; split; congruence.
  - intros image C. rewrite ancestorChain_step. simpl. now rewrite C.
  - intros image k E.
    destruct (firstSuccess (createImage tileSource) (ancestorChain key))
      as [[image' k']|] eqn:F; [|discriminate].
    injection E as -> ->.
    rewrite ancestorChain_step in F. simpl in F.
    destruct (createImage tileSource key) as [image0|] eqn:C.
    + injection F as -> ->. split; reflexivity.
    + split; [|discriminate]. intros ->.
      destruct (createParentKey key) as [p|] eqn:P; [|discriminate].
      apply firstSuccess_on_chain in F as (n & Hn & _).
      apply nthParent_level in Hn. apply createParentKey_Some in P. lia.
  - intros hf C. rewrite ancestorChain_step. simpl. now rewrite C.
Qed.

(** C5.  A heightfield produced at the requested key is returned as it is.
    Otherwise, when the nearest ancestor with data is [ancestor] with raster
    [hf], the result is the extraction of [hf] for the requested key at
    [hf]'s own numbers of columns and rows; the function takes no sample
    size of its own. *)
Theorem createValidHeightField_extraction (tileSource : TileSource)
    (key : TileKey) :
  (forall hf,
     createHeightField tileSource key = Some hf ->
     createValidHeightField tileSource key = (Some hf, [key]))
  /\ (forall n ancestor hf,
        0 < n ->
        nthParent n key = Some ancestor ->
        createHeightField tileSource ancestor = Some hf ->
        (forall i ki, i < n -> nthParent i key = Some ki ->
                      createHeightField tileSource ki = None) ->
        outcome (createValidHeightField tileSource key)
          = Some (extractChild ancestor hf key
                    (getNumColumns hf) (getNumRows hf))).
Proof.
  split.
  - intros hf C. unfold createValidHeightField. now rewrite C.
  - intros n ancestor hf Hn Hanc Hhf Hbefore.
    rewrite createValidHeightField_chain. simpl.
    rewrite (Hbefore 0 key Hn eq_refl).
    assert (F : firstSuccess (createHeightField tileSource) (ancestorChain key)
                = Some (hf, ancestor)).
    { apply firstSuccess_on_chain. exists n. auto. }
    now rewrite F.
Qed.

(** C7.  Each parent is exactly one level up; from a key [k] the parents
    exist for [level k] steps, the last one being at level 0, where
    [createParentKey] gives nothing.  The walks of [createValidImage] and
    [createValidHeightField] are total functions with no step bound of their
    own: they ask at most [level k + 1] keys, the [i]-th of them being the
    [i]-th parent, [i] levels above [k]. *)
Theorem createParentKey_walk_terminates (key : TileKey) :
  (forall k p, createParentKey k = Some p -> S (level p) = level k)
  /\ (forall i, i <= level key ->
        exists k, nthParent i key = Some k /\ level k + i = level key)
  /\ (forall root, nthParent (level key) key = Some root ->
        level root = 0 /\ createParentKey root = None)
  /\ nthParent (S (level key)) key = None
  /\ (forall tileSource imageTile,
        List.length (keysAsked (createValidImage tileSource key imageTile))
          <= S (level key)
        /\ forall i k,
             nth_error (keysAsked (createValidImage tileSource key imageTile)) i
               = Some k ->
             nthParent i key = Some k /\ level k + i = level key)
  /\ (forall tileSource,
        List.length (keysAsked (createValidHeightField tileSource key))
          <= S (level key)
        /\ forall i k,
             nth_error (keysAsked (createValidHeightField tileSource key)) i
               = Some k ->
             nthParent i key = Some k /\ level k + i = level key).
Proof.
  split_ands.
  - intros k p P. apply createParentKey_Some in P. lia.
  - intros i Hi. destruct (nthParent_defined i key Hi) as [k Hk].
    exists k. split; [assumption|]. now apply nthParent_level.
  - intros root Hroot. apply nthParent_level in Hroot.
    assert (level root = 0) by lia. split; [assumption|].
    now apply createParentKey_None.
  - apply nthParent_past_root. lia.
  - intros tileSource imageTile. rewrite createValidImage_chain. simpl. split.
    + rewrite <- ancestorChain_length. apply untilSuccess_length.
    + intros i k Hi. apply untilSuccess_nth in Hi as [Hi _].
      rewrite ancestorChain_nth in Hi. split; [assumption|].
      now apply nthParent_level.
  - intros tileSource. rewrite createValidHeightField_chain. simpl. split.
    + rewrite <- ancestorChain_length. apply untilSuccess_length.
    + intros i k Hi. apply untilSuccess_nth in Hi as [Hi _].
      rewrite ancestorChain_nth in Hi. split; [assumption|].
      now apply nthParent_level.
Qed.

(** C8.  Whenever a resolver succeeds, the key that produced the data is the
    requested key or one of its ancestors, so its level does not exceed the
    requested level; the same holds of every key the source was asked at.
    For [createValidHeightField], which does not return the producing key,
    it is the last key asked. *)
Theorem producing_key_never_deeper (tileSource : TileSource) (key : TileKey)
    (imageTile : ImageTileKeyPair) :
  (returned (createValidImage tileSource key imageTile) = true ->
   exists image k n,
     imageTileAfter (createValidImage tileSource key imageTile)
       = (Some image, Some k)
     /\ createImage tileSource k = Some image
     /\ nthParent n key = Some k
     /\ level k <= level key)
  /\ (forall k,
        In k (keysAsked (createValidImage tileSource key imageTile)) ->
        level k <= level key /\ exists n, nthParent n key = Some k)
  /\ (forall h,
        outcome (createValidHeightField tileSource key) = Some h ->
        exists hf k n,
          last (keysAsked (createValidHeightField tileSource key)) key = k
          /\ createHeightField tileSource k = Some hf
          /\ nthParent n key = Some k
          /\ level k <= level key
          /\ (n = 0 -> h = hf)
          /\ (0 < n ->
              h = extractChild k hf key (getNumColumns hf) (getNumRows hf)))
  /\ (forall k,
        In k (keysAsked (createValidHeightField tileSource key)) ->
        level k <= level key /\ exists n, nthParent n key = Some k).
Proof.
  rewrite createValidImage_chain, createValidHeightField_chain. simpl.
  split_ands.
  - destruct (firstSuccess (createImage tileSource) (ancestorChain key))
      as [[image k]|] eqn:F; simpl; [intros _|discriminate].
    apply firstSuccess_on_chain in F as (n & Hn & Hr & _).
    exists image, k, n. split_ands; auto.
    apply nthParent_level in Hn. lia.
  - intros k Hin. apply In_ancestorChain. eapply untilSuccess_In; eauto.
  - intros h E.
    destruct (createHeightField tileSource key) as [hf|] eqn:C.
    + injection E as <-. exists hf, key, 0.
      rewrite ancestorChain_step. simpl. rewrite C. simpl.
      split_ands; auto. intro Hlt. lia.
    + destruct (firstSuccess (createHeightField tileSource) (ancestorChain key))
        as [[hf k]|] eqn:F; [|discriminate].
      injection E as <-. exists hf, k.
      pose proof (untilSuccess_last _ _ _ _ key F) as L.
      apply firstSuccess_on_chain in F as (n & Hn & Hr & _).
      exists n. split_ands; auto.
      * apply nthParent_level in Hn. lia.
      * intros ->. simpl in Hn. injection Hn as <-. congruence.
  - intros k Hin. apply In_ancestorChain. eapply untilSuccess_In; eauto.
Qed.

(** C10.  When [createValidImage] returns false the output pair is the one
    that was passed in; a pair that differs from it is only ever left behind
    by a call that returned true, and then both fields are set. *)
Theorem createValidImage_false_keeps_output (tileSource : TileSource)
    (key : TileKey) (imageTile : ImageTileKeyPair) :
  (returned (createValidImage tileSource key imageTile) = false ->
   imageTileAfter (createValidImage tileSource key imageTile) = imageTile)
  /\ (imageTileAfter (createValidImage tileSource key imageTile) <> imageTile ->
      returned (createValidImage tileSource key imageTile) = true)
  /\ (returned (createValidImage tileSource key imageTile) = true ->
      exists image k,
        imageTileAfter (createValidImage tileSource key imageTile)
          = (Some image, Some k)).
Proof.
  unfold createValidImage.
  destruct (createImage tileSource key) as [image|]; simpl.
  - split_ands; [discriminate|reflexivity|eauto].
  - destruct (parentLoop (createImage tileSource) (createParentKey key))
      as [[[image k]|] tried]; simpl.
    + split_ands; [discriminate|reflexivity|eauto].
    + split_ands; [reflexivity|congruence|discriminate].
Qed.

(** ** Reconciliation *)

Lemma ProfileType_eqb_eq (a b : ProfileType) :
  ProfileType_eqb a b = true <-> a = b.
Proof. destruct a, b; simpl; split; congruence. Qed.

Lemma ProfileType_eqb_neq (a b : ProfileType) :
  ProfileType_eqb a b = false <-> a <> b.
Proof. destruct a, b; simpl; split; congruence. Qed.

(** Once the running profile is known the image loop never changes it and
    keeps exactly the compatible sources. *)
Lemma reconcileImageSources_known (sources : TileSourceList) :
  forall dataProfile : TileGridProfile,
  profileType dataProfile <> UNKNOWN ->
  reconcileImageSources dataProfile sources =
  (dataProfile, filter (imageCompatible dataProfile) sources).
Proof.
  induction sources as [|itr rest IH]; intros dataProfile Hknown; simpl.
  - reflexivity.
  - apply ProfileType_eqb_neq in Hknown as Hb. rewrite Hb.
    unfold imageCompatible.
    destruct (profile_neq dataProfile (getProfile itr)); simpl.
    + destruct (ProfileType_eqb (profileType dataProfile) GLOBAL_GEODETIC
                && ProfileType_eqb (profileType (getProfile itr)) GLOBAL_MERCATOR);
        simpl; rewrite (IH _ Hknown); reflexivity.
    + rewrite (IH _ Hknown). reflexivity.
Qed.

Lemma reconcileHeightFieldSources_known (sources : TileSourceList) :
  forall dataProfile : TileGridProfile,
  profileType dataProfile <> UNKNOWN ->
  reconcileHeightFieldSources dataProfile sources =
  (dataProfile, filter (heightFieldCompatible dataProfile) sources).
Proof.
  induction sources as [|itr rest IH]; intros dataProfile Hknown; simpl.
  - reflexivity.
  - apply ProfileType_eqb_neq in Hknown as Hb. rewrite Hb.
    unfold heightFieldCompatible.
    destruct (profile_neq dataProfile (getProfile itr)); simpl;
      rewrite (IH _ Hknown); reflexivity.
Qed.

(** While the running profile is unknown the first source met seeds it and
    is kept. *)
Lemma reconcileImageSources_seed (dataProfile : TileGridProfile)
    (first : TileSource) (others : TileSourceList) :
  profileType dataProfile = UNKNOWN ->
  profileType (getProfile first) <> UNKNOWN ->
  reconcileImageSources dataProfile (first :: others) =
  (getProfile first, first :: filter (imageCompatible (getProfile first)) others).
Proof.
  intros Hu Hk. simpl. rewrite Hu. simpl.
  now rewrite reconcileImageSources_known.
Qed.

Lemma reconcileHeightFieldSources_seed (dataProfile : TileGridProfile)
    (first : TileSource) (others : TileSourceList) :
  profileType dataProfile = UNKNOWN ->
  profileType (getProfile first) <> UNKNOWN ->
  reconcileHeightFieldSources dataProfile (first :: others) =
  (getProfile first,
   first :: filter (heightFieldCompatible (getProfile first)) others).
Proof.
  intros Hu Hk. simpl. rewrite Hu. simpl.
  now rewrite reconcileHeightFieldSources_known.
Qed.

Lemma getDataProfile_again (b : TileBuilder) :
  getDataProfile (builderAfter (getDataProfile b)) = getDataProfile b.
Proof.
  unfold getDataProfile. destruct (_profileComputed b) eqn:E; simpl.
  - now rewrite E.
  - destruct (reconcileImageSources (_dataProfile b) (image_sources b))
      as [p1 images].
    destruct (reconcileHeightFieldSources p1 (heightfield_sources b))
      as [p2 heightfields]. reflexivity.
Qed.

Lemma getDataProfile_map (b : TileBuilder) :
  map (builderAfter (getDataProfile b)) = map b.
Proof.
  unfold getDataProfile. destruct (_profileComputed b); simpl; [reflexivity|].
  destruct (reconcileImageSources (_dataProfile b) (image_sources b))
    as [p1 images].
  destruct (reconcileHeightFieldSources p1 (heightfield_sources b))
    as [p2 heightfields]. reflexivity.
Qed.

Lemma length_eqb_0 {A : Type} (l : list A) :
  (List.length l =? 0) = true <-> l = [].
Proof. destruct l; simpl; split; congruence. Qed.

(** C2 (amended).  With no profile set beforehand, [getDataProfile] seeds
    the result with the first image source's profile and never changes it
    afterwards.  It removes every later image source whose profile differs
    from the running result unless the running result is geodetic-global and
    the source's profile is mercator-global.  The heightfield sources are
    checked against the same running result with no exception: each one
    whose profile differs is removed (and when there is no image source, the
    first heightfield source is the seed).  Image sources [geodetic,
    mercator, geodetic] keep the mercator source and end on a geodetic
    profile; image sources [geodetic, projected] whose profiles differ lose
    the projected one. *)
Theorem getDataProfile_reconciles (b : TileBuilder) :
  _profileComputed b = false ->
  profileType (_dataProfile b) = UNKNOWN ->
  (forall first others,
     image_sources b = first :: others ->
     profileType (getProfile first) <> UNKNOWN ->
     returnValue (getDataProfile b) = getProfile first
     /\ _dataProfile (builderAfter (getDataProfile b)) = getProfile first
     /\ image_sources (builderAfter (getDataProfile b))
        = first :: filter (imageCompatible (getProfile first)) others
     /\ heightfield_sources (builderAfter (getDataProfile b))
        = filter (heightFieldCompatible (getProfile first))
            (heightfield_sources b))
  /\ (forall first others,
        image_sources b = [] ->
        heightfield_sources b = first :: others ->
        profileType (getProfile first) <> UNKNOWN ->
        returnValue (getDataProfile b) = getProfile first
        /\ heightfield_sources (builderAfter (getDataProfile b))
           = first :: filter (heightFieldCompatible (getProfile first)) others)
  /\ (forall g1 m g2,
        image_sources b = [g1; m; g2] ->
        profileType (getProfile g1) = GLOBAL_GEODETIC ->
        profileType (getProfile m) = GLOBAL_MERCATOR ->
        profileType (getProfile g2) = GLOBAL_GEODETIC ->
        In m (image_sources (builderAfter (getDataProfile b)))
        /\ profileType (returnValue (getDataProfile b)) = GLOBAL_GEODETIC)
  /\ (forall g p,
        image_sources b = [g; p] ->
        profileType (getProfile g) = GLOBAL_GEODETIC ->
        profileType (getProfile p) = PROJECTED ->
        profile_neq (getProfile g) (getProfile p) = true ->
        image_sources (builderAfter (getDataProfile b)) = [g]).
Proof.
  intros Hnot Hunknown.
  assert (A : forall first others,
     image_sources b = first :: others ->
     profileType (getProfile first) <> UNKNOWN ->
     getDataProfile b =
     (getProfile first,
      mkTileBuilder (map b)
        (first :: filter (imageCompatible (getProfile first)) others)
        (filter (heightFieldCompatible (getProfile first))
           (heightfield_sources b))
        true (getProfile first))).
  { intros first others Himg Hknown. unfold getDataProfile.
    rewrite Hnot, Himg, (reconcileImageSources_seed _ _ _ Hunknown Hknown).
    now rewrite (reconcileHeightFieldSources_known _ _ Hknown). }
  split_ands.
  - intros first others Himg Hknown. rewrite (A _ _ Himg Hknown). simpl. auto.
  - intros first others Himg Hhf Hknown. unfold getDataProfile.
    rewrite Hnot, Himg, Hhf. simpl reconcileImageSources. cbv iota beta.
    rewrite (reconcileHeightFieldSources_seed _ _ _ Hunknown Hknown).
    simpl. auto.
  - intros g1 m g2 Himg Hg1 Hm Hg2.
    assert (Hknown : profileType (getProfile g1) <> UNKNOWN) by congruence.
    rewrite (A _ _ Himg Hknown). simpl. split; [|assumption].
    unfold imageCompatible at 1. rewrite Hg1, Hm. simpl.
    rewrite orb_true_r. right. now left.
  - intros g p Himg Hg Hp Hneq.
    assert (Hknown : profileType (getProfile g) <> UNKNOWN) by congruence.
    rewrite (A _ _ Himg Hknown). simpl.
    unfold imageCompatible. rewrite Hneq, Hg, Hp. reflexivity.
Qed.

Lemma CoordinateSystemType_eqb_eq (a b : CoordinateSystemType) :
  CoordinateSystemType_eqb a b = true <-> a = b.
Proof. destruct a, b; simpl; split; congruence. Qed.

(** The value [isValid] returns, as one boolean expression over the builder
    it is called on. *)
Lemma isValid_value (b : TileBuilder) :
  returnValue (isValid b) =
  negb ((List.length (image_sources b) =? 0)
        && (List.length (heightfield_sources b) =? 0))
  && negb (ProfileType_eqb (profileType (returnValue (getDataProfile b))) PROJECTED
           && CoordinateSystemType_eqb (getCoordinateSystemType (map b))
                CSTYPE_GEOCENTRIC)
  && negb (ProfileType_eqb (profileType (returnValue (getDataProfile b))) UNKNOWN).
Proof.
  unfold isValid.
  pose proof (getDataProfile_again b) as Hagain.
  pose proof (getDataProfile_map b) as Hmap.
  destruct (getDataProfile b) as [p1 b1]. simpl in Hagain, Hmap. simpl fst.
  destruct ((List.length (image_sources b) =? 0)
            && (List.length (heightfield_sources b) =? 0)); simpl;
    [reflexivity|].
  rewrite Hagain, Hmap.
  destruct (ProfileType_eqb (profileType p1) PROJECTED
            && CoordinateSystemType_eqb (getCoordinateSystemType (map b))
                 CSTYPE_GEOCENTRIC); simpl; [reflexivity|].
  destruct (ProfileType_eqb (profileType p1) UNKNOWN); reflexivity.
Qed.

(** X26.  [isValid] answers false exactly when both source lists are empty
    at the moment it is called, or the profile [getDataProfile] arrives at is
    unknown, or that profile is projected while the map is geocentric; in
    every other case it answers true.  The lists are read before the
    reconciliation the same call may trigger. *)
Theorem isValid_false_iff (b : TileBuilder) :
  (returnValue (isValid b) = false <->
   (image_sources b = [] /\ heightfield_sources b = [])
   \/ profileType (returnValue (getDataProfile b)) = UNKNOWN
   \/ (profileType (returnValue (getDataProfile b)) = PROJECTED
       /\ getCoordinateSystemType (map b) = CSTYPE_GEOCENTRIC))
  /\ (returnValue (isValid b) = true <->
      ~ (image_sources b = [] /\ heightfield_sources b = [])
      /\ profileType (returnValue (getDataProfile b)) <> UNKNOWN
      /\ ~ (profileType (returnValue (getDataProfile b)) = PROJECTED
            /\ getCoordinateSystemType (map b) = CSTYPE_GEOCENTRIC)).
Proof.
  assert (F : returnValue (isValid b) = false <->
              (image_sources b = [] /\ heightfield_sources b = [])
              \/ profileType (returnValue (getDataProfile b)) = UNKNOWN
              \/ (profileType (returnValue (getDataProfile b)) = PROJECTED
                  /\ getCoordinateSystemType (map b) = CSTYPE_GEOCENTRIC)).
  { rewrite isValid_value, !andb_false_iff, !negb_false_iff, !andb_true_iff,
      !length_eqb_0, !ProfileType_eqb_eq, CoordinateSystemType_eqb_eq.
    tauto. }
  split; [exact F|].
  rewrite <- not_false_iff_true, F. tauto.
Qed.

End Facts.

End TileBuilderFacts.

(* ===================================================================== *)
(** * Properties of MapFrame.cpp *)
(* ===================================================================== *)

Module MapFrameFacts.

Import MapFrame.

Section Facts.

Context {TileKey Cache : Type}.

Local Abbreviation TerrainLayer := (@TerrainLayer TileKey).
Local Abbreviation Layer := (@Layer TileKey).
Local Abbreviation MapFrame := (@MapFrame TileKey Cache).
Local Abbreviation Map := (@Map Cache).

(** One pass through the loop body is the ruling of the first applicable
    rule, reached by the checks of the rules up to it and no other. *)
Lemma examineLayer_by_rules (key : TileKey) (i : nat) (layer : TerrainLayer) :
  examineLayer key i layer =
  (ruling key layer (firstApplicable key layer),
   checksFor i (firstApplicable key layer)).
Proof.
  unfold examineLayer, firstApplicable, ruling, checksFor, call, bind, ret.
  simpl.
  destruct (getEnabled layer); simpl; [|reflexivity].
  destruct (cachePolicy layer); simpl; try reflexivity.
  destruct (mayHaveData layer key); simpl; [|reflexivity].
  destruct (getTileSource layer) as [src|]; simpl; [|reflexivity].
  destruct (blacklistContains src key); simpl; [reflexivity|].
  destruct (layerIsCached layer key); reflexivity.
Qed.

Lemma layersLoop_by_rules (key : TileKey) (layers : list Layer) :
  forall i, layersLoop key i layers = verdictByRules key i layers.
Proof.
  induction layers as [|[layer|] rest IH]; intro i; simpl.
  - reflexivity.
  - rewrite examineLayer_by_rules. unfold bind, ret.
    destruct (ruling key layer (firstApplicable key layer)).
    + rewrite IH. now destruct (verdictByRules key (S i) rest).
    + now rewrite app_nil_r.
  - apply IH.
Qed.

Lemma verdictByRules_true (key : TileKey) (layers : list Layer) :
  forall i,
  verdict (verdictByRules key i layers) = true <->
  (forall layer, In (IsTerrainLayer layer) layers ->
                 ruling key layer (firstApplicable key layer) = Continue).
Proof.
  induction layers as [|[layer|] rest IH]; intro i; simpl.
  - split; [intros _ layer []|reflexivity].
  - destruct (ruling key layer (firstApplicable key layer)) eqn:E; simpl.
    + rewrite IH. split.
      * intros H0 l [Hl|Hl]; [congruence|auto].
      * intros H0 l Hl. apply H0. now right.
    + split; [discriminate|]. intro H0.
      specialize (H0 layer (or_introl eq_refl)). congruence.
  - rewrite IH. split.
    + intros H0 l [Hl|Hl]; [discriminate|auto].
    + intros H0 l Hl. apply H0. now right.
Qed.

Lemma checksFor_index (i j : nat) (r : Rule) (c : Call) :
  In (j, c) (checksFor i r) -> j = i.
Proof.
  unfold checksFor. rewrite in_map_iff. intros (x & E & _). congruence.
Qed.

(** Evaluation stops at the first layer ruled [ReturnFalse]: the verdict is
    false and no layer after it is asked anything. *)
Lemma verdictByRules_stops (key : TileKey) (before : list Layer)
    (layer : TerrainLayer) (after : list Layer) :
  forall i,
  (forall l, In (IsTerrainLayer l) before ->
             ruling key l (firstApplicable key l) = Continue) ->
  ruling key layer (firstApplicable key layer) = ReturnFalse ->
  verdict (verdictByRules key i (before ++ IsTerrainLayer layer :: after)) = false
  /\ forall j c,
       In (j, c) (callsMade (verdictByRules key i
                         (before ++ IsTerrainLayer layer :: after))) ->
       j <= i + List.length before.
Proof.
  induction before as [|[l|] rest IH]; intros i Hbefore Hlayer;
    cbn [app verdictByRules List.length].
  - rewrite Hlayer. cbn [fst snd]. split; [reflexivity|].
    intros j c Hin. apply checksFor_index in Hin. lia.
  - rewrite (Hbefore l (or_introl eq_refl)). cbn [fst snd].
    destruct (IH (S i)) as [IH1 IH2]; [|assumption|].
    { intros l' Hl'. apply Hbefore. now right. }
    split; [assumption|]. intros j c Hin. apply in_app_or in Hin as [Hin|Hin].
    + apply checksFor_index in Hin. lia.
    + apply IH2 in Hin. lia.
  - destruct (IH (S i)) as [IH1 IH2]; [|assumption|].
    { intros l' Hl'. apply Hbefore. now right. }
    split; [assumption|]. intros j c Hin. apply IH2 in Hin. lia.
Qed.

Lemma isCached_guard_off (mf : MapFrame) (key : TileKey) :
  mapWithoutCache mf = false ->
  isCached mf key = verdictByRules key 0 (_layers mf).
Proof.
  intro G. unfold isCached. rewrite G. apply layersLoop_by_rules.
Qed.

Lemma isCached_guard_on (mf : MapFrame) (key : TileKey) :
  mapWithoutCache mf = true -> isCached mf key = (false, []).
Proof. intro G. unfold isCached. now rewrite G. Qed.

(** C1 (amended).  Unless the map is alive and has no cache, [isCached]
    decides every terrain layer by the first rule that applies to it in the
    order 1 to 7, making the checks of the rules up to that one and none
    after it; a layer ruled false (rule 3, or rule 7 with the key absent from
    the layer's cache) makes the verdict false and ends the evaluation; the
    verdict is true exactly when no layer is ruled false.  Entries of the
    layer vector that are not terrain layers are passed over. *)
Theorem isCached_rule_priority (mf : MapFrame) (key : TileKey) :
  mapWithoutCache mf = false ->
  (forall i layer,
     examineLayer key i layer =
     (ruling key layer (firstApplicable key layer),
      checksFor i (firstApplicable key layer)))
  /\ isCached mf key = verdictByRules key 0 (_layers mf)
  /\ (verdict (isCached mf key) = true <->
      forall layer, In (IsTerrainLayer layer) (_layers mf) ->
                    ruling key layer (firstApplicable key layer) = Continue)
  /\ (forall before layer after,
        _layers mf = before ++ IsTerrainLayer layer :: after ->
        (forall l, In (IsTerrainLayer l) before ->
                   ruling key l (firstApplicable key l) = Continue) ->
        ruling key layer (firstApplicable key layer) = ReturnFalse ->
        verdict (isCached mf key) = false
        /\ forall j c, In (j, c) (callsMade (isCached mf key)) ->
                       j <= List.length before).
Proof.
  intro G. rewrite (isCached_guard_off _ _ G). split_ands.
  - intros i layer. apply examineLayer_by_rules.
  - reflexivity.
  - apply verdictByRules_true.
  - intros before layer after E Hbefore Hlayer. rewrite E.
    apply (verdictByRules_stops key before layer after 0 Hbefore Hlayer).
Qed.

(** C3 (amended).  A layer set that contains an enabled terrain layer whose
    policy is cache-disabled makes [isCached] answer false whatever the
    other layers are.  Unless the map is alive and has no cache, an empty
    layer set, or one whose layers are all disabled, makes it answer
    true. *)
Theorem isCached_cache_disabled_and_idle_sets (mf : MapFrame) (key : TileKey) :
  (forall layer,
     In (IsTerrainLayer layer) (_layers mf) ->
     getEnabled layer = true ->
     cachePolicy layer = CacheDisabled ->
     verdict (isCached mf key) = false)
  /\ (mapWithoutCache mf = false ->
      _layers mf = [] ->
      isCached mf key = (true, []))
  /\ (mapWithoutCache mf = false ->
      (forall layer, In (IsTerrainLayer layer) (_layers mf) ->
                     getEnabled layer = false) ->
      verdict (isCached mf key) = true).
Proof.
  split_ands.
  - intros layer Hin Hen Hpol.
    destruct (mapWithoutCache mf) eqn:G.
    + now rewrite (isCached_guard_on _ _ G).
    + rewrite (isCached_guard_off _ _ G).
      apply not_true_is_false. intro T.
      pose proof (proj1 (verdictByRules_true key (_layers mf) 0) T layer Hin)
        as T'.
      unfold firstApplicable in T'. simpl in T'. rewrite Hen, Hpol in T'.
      discriminate.
  - intros G E. rewrite (isCached_guard_off _ _ G), E. reflexivity.
  - intros G Hall. rewrite (isCached_guard_off _ _ G).
    apply verdictByRules_true. intros layer Hin.
    unfold firstApplicable. simpl. now rewrite (Hall layer Hin).
Qed.

(** C9.  When the map is alive and has no cache object, [isCached] answers
    false for every key and every layer list, the empty one included, and
    calls no method of any layer. *)
Theorem isCached_without_map_cache (mf : MapFrame) (key : TileKey) (map : Map) :
  _map mf = Some map ->
  getCache map = None ->
  isCached mf key = (false, []).
Proof.
  intros Hmap Hcache. apply isCached_guard_on.
  unfold mapWithoutCache. now rewrite Hmap, Hcache.
Qed.

End Facts.

End MapFrameFacts.

(* ===================================================================== *)
(** * The definitions at work *)
(* ===================================================================== *)

Module Scenarios.

Import TileBuilder MapFrame Sample.
Import TileBuilderFacts MapFrameFacts.

Open Scope string_scope.

(** A source with data down to level 1, asked at a level-3 key: three keys
    are asked and the level-1 ancestor produces the image. *)
Example createValidImage_ancestor_hit :
  createValidImage geodeticA (key 3 5 6) (None, None)
  = ((true, (Some 1, Some (key 1 1 1))), [key 3 5 6; key 2 2 3; key 1 1 1]).
Proof. reflexivity. Qed.

Example createValidImage_direct_hit :
  createValidImage geodeticA (key 1 1 0) (None, None)
  = ((true, (Some 1, Some (key 1 1 0))), [key 1 1 0]).
Proof. reflexivity. Qed.

(** A source with no data: the whole chain is asked, the pair is left as it
    was. *)
Example createValidImage_exhausted :
  createValidImage (emptySource "none" GLOBAL_GEODETIC) (key 2 3 1)
    (Some 42, Some (key 9 9 9))
  = ((false, (Some 42, Some (key 9 9 9))), [key 2 3 1; key 1 1 0; key 0 0 0]).
Proof. reflexivity. Qed.

Example createValidHeightField_ancestor_hit :
  createValidHeightField geodeticA (key 3 5 6)
  = (Some (16%N, 8%N, 103), [key 3 5 6; key 2 2 3; key 1 1 1]).
Proof. reflexivity. Qed.

Example isValid_no_sources : returnValue (isValid (builder [] [])) = false.
Proof. reflexivity. Qed.

Example isValid_projected_geocentric :
  returnValue (isValid (builder [projectedD] [])) = false.
Proof. reflexivity. Qed.

Example isValid_geodetic_geocentric :
  returnValue (isValid (builder [geodeticA; mercatorB] [geodeticC])) = true.
Proof. reflexivity. Qed.

(** ** Reconciliation *)

(** The rule of C2 as stated, on heightfield sources [geodetic, mercator,
    geodetic]: the running profile is geodetic and the mercator source is
    removed all the same. *)
Lemma getDataProfile_drops_mercator_heightfield :
  profileType
    (returnValue (getDataProfile (builder [] [geodeticA; mercatorB; geodeticC])))
    = GLOBAL_GEODETIC
  /\ profileType (getProfile mercatorB) = GLOBAL_MERCATOR
  /\ heightfield_sources
       (builderAfter (getDataProfile (builder [] [geodeticA; mercatorB; geodeticC])))
     = [geodeticA; geodeticC]
  /\ ~ In mercatorB
         (heightfield_sources
            (builderAfter (getDataProfile (builder [] [geodeticA; mercatorB; geodeticC])))).
Proof.
  split_ands; try reflexivity.
  intros [E|[E|[]]]; apply (f_equal getName) in E; discriminate.
Qed.

Lemma getDataProfile_reconciles_witness :
  (_profileComputed (builder [geodeticA; mercatorB; geodeticC] [mercatorB]) = false
   /\ In mercatorB
        (image_sources
           (builderAfter (getDataProfile
                   (builder [geodeticA; mercatorB; geodeticC] [mercatorB]))))
   /\ profileType
        (returnValue (getDataProfile
                (builder [geodeticA; mercatorB; geodeticC] [mercatorB])))
      = GLOBAL_GEODETIC)
  /\ image_sources (builderAfter (getDataProfile (builder [geodeticA; projectedD] [])))
     = [geodeticA].
Proof.
  split.
  - split; [reflexivity|].
    apply (proj1 (proj2 (proj2
             (getDataProfile_reconciles
                (builder [geodeticA; mercatorB; geodeticC] [mercatorB])
                eq_refl eq_refl)))
             geodeticA mercatorB geodeticC); reflexivity.
  - apply (proj2 (proj2 (proj2
             (getDataProfile_reconciles (builder [geodeticA; projectedD] [])
                eq_refl eq_refl)))
             geodeticA projectedD); reflexivity.
Defined.

(** The emptiness test of [isValid] reads the lists as they stand on entry:
    with the profile preset to mercator, a builder whose only source is
    geodetic is declared valid by the call that removes that source, and
    invalid by the next one. *)
Example isValid_reads_lists_on_entry :
  isValid (mkTileBuilder geocentric [geodeticA] [] false GLOBAL_MERCATOR)
  = (true, mkTileBuilder geocentric [] [] true GLOBAL_MERCATOR)
  /\ returnValue (isValid (mkTileBuilder geocentric [] [] true GLOBAL_MERCATOR)) = false.
Proof. split; reflexivity. Qed.

(** ** Heightfield extraction *)

Lemma createValidHeightField_extraction_witness :
  outcome (createValidHeightField geodeticA (key 3 5 6))
  = Some (extractChild (key 1 1 1) (16%N, 8%N, 1) (key 3 5 6) 16%N 8%N).
Proof.
  apply (proj2 (createValidHeightField_extraction geodeticA (key 3 5 6))
           2 (key 1 1 1) (16%N, 8%N, 1)).
  - lia.
  - reflexivity.
  - reflexivity.
  - intros [|[|i]] ki Hi E; simpl in E.
    + injection E as <-. reflexivity.
    + injection E as <-. reflexivity.
    + lia.
Defined.

(** ** Cache reachability *)

(** The verdict rule of C1 as stated, on a live map without a cache: the
    only layer is enabled, normal, backed by a source, not blacklisted and
    has the key in its cache, so no layer is ruled false; the verdict is
    false all the same, and the layer was never asked. *)
Lemma isCached_false_though_no_layer_ruled_false :
  (forall layer,
     In (IsTerrainLayer layer) (_layers (withoutCache [IsTerrainLayer cachedLayer])) ->
     ruling 7 layer (firstApplicable 7 layer) = Continue)
  /\ isCached (withoutCache [IsTerrainLayer cachedLayer]) 7 = (false, []).
Proof.
  split; [|reflexivity].
  intros layer [E|[]]. injection E as <-. reflexivity.
Qed.

Lemma isCached_rule_priority_witness :
  mapWithoutCache
    (withCache [IsTerrainLayer cachedLayer; OtherLayer;
                IsTerrainLayer uncachedLayer; IsTerrainLayer noCacheLayer])
    = false
  /\ verdict (isCached
            (withCache [IsTerrainLayer cachedLayer; OtherLayer;
                        IsTerrainLayer uncachedLayer; IsTerrainLayer noCacheLayer])
            7) = false
  /\ forall j c,
       In (j, c)
          (callsMade (isCached
                  (withCache [IsTerrainLayer cachedLayer; OtherLayer;
                              IsTerrainLayer uncachedLayer;
                              IsTerrainLayer noCacheLayer]) 7)) ->
       j <= 2.
Proof.
  split; [reflexivity|].
  apply (proj2 (proj2 (proj2
           (isCached_rule_priority
              (withCache [IsTerrainLayer cachedLayer; OtherLayer;
                          IsTerrainLayer uncachedLayer;
                          IsTerrainLayer noCacheLayer]) 7 eq_refl)))
           [IsTerrainLayer cachedLayer; OtherLayer] uncachedLayer
           [IsTerrainLayer noCacheLayer]).
  - reflexivity.
  - intros l [E|[E|[]]]; [injection E as <-; reflexivity|discriminate].
  - reflexivity.
Defined.

(** The second half of C3 as stated, on a live map without a cache: with no
    layer at all, and with one disabled layer, the verdict is false. *)
Lemma isCached_false_on_idle_sets_without_cache :
  _layers (withoutCache []) = []
  /\ verdict (isCached (withoutCache []) 0) = false
  /\ (forall layer,
        In (IsTerrainLayer layer)
           (_layers (withoutCache [IsTerrainLayer disabledLayer])) ->
        getEnabled layer = false)
  /\ verdict (isCached (withoutCache [IsTerrainLayer disabledLayer]) 0) = false.
Proof.
  split_ands; try reflexivity.
  intros layer [E|[]]. injection E as <-. reflexivity.
Qed.

Lemma isCached_cache_disabled_and_idle_sets_witness :
  verdict (isCached (withCache [IsTerrainLayer cachedLayer;
                            IsTerrainLayer noCacheLayer]) 5) = false
  /\ verdict (isCached (mapGone [IsTerrainLayer disabledLayer; OtherLayer]) 5) = true.
Proof.
  split.
  - apply (proj1 (isCached_cache_disabled_and_idle_sets
                    (withCache [IsTerrainLayer cachedLayer;
                                IsTerrainLayer noCacheLayer]) 5) noCacheLayer).
    + right. left. reflexivity.
    + reflexivity.
    + reflexivity.
  - apply (proj2 (proj2 (isCached_cache_disabled_and_idle_sets
                    (mapGone [IsTerrainLayer disabledLayer; OtherLayer]) 5))).
    + reflexivity.
    + intros layer [E|[E|[]]]; [injection E as <-; reflexivity|discriminate].
Defined.

Lemma isCached_without_map_cache_witness :
  _map (withoutCache [IsTerrainLayer cachedLayer]) = Some (mkMap None)
  /\ isCached (withoutCache [IsTerrainLayer cachedLayer]) 3 = (false, []).
Proof.
  split; [reflexivity|].
  apply (isCached_without_map_cache
           (withoutCache [IsTerrainLayer cachedLayer]) 3 (mkMap None));
    reflexivity.
Defined.

End Scenarios.

(* ===================================================================== *)
(** * Further properties of TileBuilder.cpp *)
(* ===================================================================== *)

Module TileBuilderMoreFacts.

Import TileBuilder TileBuilderSetup TileBuilderFacts.

Section Resolution.

Context `{RS : Rasters}.

Lemma nthParent_add (n : nat) : forall (m : nat) (d key k : TileKey),
  nthParent n d = Some key -> nthParent m key = Some k ->
  nthParent (n + m) d = Some k.
Proof.
  induction n as [|n IH]; simpl; intros m d key k Hd Hk.
  - now injection Hd as <-.
  - destruct (createParentKey d) as [p|]; [|discriminate]. eauto.
Qed.

Lemma firstSuccess_not_None {R : Type} (create : TileKey -> option R)
    (keys : list TileKey) :
  firstSuccess create keys <> None <->
  exists k, In k keys /\ create k <> None.
Proof.
  induction keys as [|k0 rest IH]; simpl.
  - split; [congruence|]. intros (k & [] & _).
  - destruct (create k0) as [r|] eqn:C.
    + split; [|discriminate]. intros _. exists k0. split; [now left|congruence].
    + rewrite IH. split.
      * intros (k & Hin & Hk). exists k. split; [now right|assumption].
      * intros (k & [<-|Hin] & Hk); [congruence|eauto].
Qed.

Lemma firstSuccess_asked {R : Type} (create : TileKey -> option R)
    (keys : list TileKey) (r : R) (k : TileKey) :
  firstSuccess create keys = Some (r, k) -> In k (untilSuccess create keys).
Proof.
  induction keys as [|k0 rest IH]; simpl; [discriminate|].
  destruct (create k0) as [r0|].
  - intro E. injection E as _ <-. now left.
  - intro E. right. auto.
Qed.

Lemma chain_of_descendant (n : nat) (d key k : TileKey) :
  nthParent n d = Some key ->
  In k (ancestorChain key) -> In k (ancestorChain d).
Proof.
  intros Hd Hin. apply In_nth_error in Hin as [m Hm].
  rewrite ancestorChain_nth in Hm.
  apply nth_error_In with (n := n + m). rewrite ancestorChain_nth.
  eapply nthParent_add; eauto.
Qed.

(** X1.  Resolving an image at a key is a hit at the key itself, or else
    exactly the resolution at its parent with the key put in front of the
    keys asked; at a root that has no image it fails after that single
    question. *)
Theorem createValidImage_falls_back_to_parent (tileSource : TileSource)
    (key : TileKey) (imageTile : ImageTileKeyPair) :
  createValidImage tileSource key imageTile =
  match createImage tileSource key with
  | Some image => ((true, (Some image, Some key)), [key])
  | None =>
      match createParentKey key with
      | Some parent =>
          asked_at key (createValidImage tileSource parent imageTile)
      | None => ((false, imageTile), [key])
      end
  end.
Proof.
  rewrite createValidImage_chain, ancestorChain_step. simpl.
  destruct (createImage tileSource key) as [image|]; [reflexivity|].
  destruct (createParentKey key) as [parent|]; [|reflexivity].
  rewrite createValidImage_chain. unfold asked_at. simpl.
  now destruct (firstSuccess (createImage tileSource) (ancestorChain parent))
    as [[image k]|].
Qed.

(** A key of the chain of [d] with data makes the walk from [d] stop with a
    success, at that key or at one nearer to [d]. *)
Lemma success_at_or_below {R : Type} (create : TileKey -> option R)
    (d k : TileKey) (j : nat) :
  nthParent j d = Some k -> create k <> None ->
  exists r' k',
    firstSuccess create (ancestorChain d) = Some (r', k')
    /\ level k <= level k'.
Proof.
  intros Hj Hk.
  assert (F : firstSuccess create (ancestorChain d) <> None).
  { apply firstSuccess_not_None. exists k. split; [|assumption].
    apply nth_error_In with (n := j). now rewrite ancestorChain_nth. }
  destruct (firstSuccess create (ancestorChain d)) as [[r' k']|] eqn:E;
    [|congruence].
  exists r', k'. split; [reflexivity|].
  apply firstSuccess_on_chain in E as (m & Hm & _ & Hbefore).
  destruct (Nat.le_gt_cases m j) as [Hle|Hgt].
  - apply nthParent_level in Hm. apply nthParent_level in Hj. lia.
  - specialize (Hbefore j k Hgt Hj). contradiction.
Qed.

(** X2.  A tile source may answer differently from one call to the next, so
    the two calls are given the source as it answers during each: [first]
    and [later].  If [createValidImage] succeeds at a key, a later call at any
    descendant of that key succeeds too, with a producing key at least as
    deep, provided the source has not in the meantime lost an image it had
    on the ancestor chain of the key. *)
Theorem createValidImage_descendants_resolve (first later : TileSource)
    (key descendant : TileKey) (n : nat) (imageTile imageTile' : ImageTileKeyPair) :
  nthParent n descendant = Some key ->
  (forall k, In k (ancestorChain key) ->
             createImage first k <> None -> createImage later k <> None) ->
  returned (createValidImage first key imageTile) = true ->
  exists image k image' k',
    imageTileAfter (createValidImage first key imageTile)
      = (Some image, Some k)
    /\ outcome (createValidImage later descendant imageTile')
       = (true, (Some image', Some k'))
    /\ level k <= level k'.
Proof.
  intros Hd Hstable. rewrite !createValidImage_chain. simpl.
  destruct (firstSuccess (createImage first) (ancestorChain key))
    as [[image k]|] eqn:F; [intros _|discriminate].
  apply firstSuccess_on_chain in F as (j & Hj & Hk & _).
  assert (Hin : In k (ancestorChain key)).
  { apply nth_error_In with (n := j). now rewrite ancestorChain_nth. }
  assert (Hlater : createImage later k <> None)
    by (apply Hstable; [assumption|congruence]).
  destruct (success_at_or_below (createImage later) descendant k (n + j)
              (nthParent_add n j descendant key k Hd Hj) Hlater)
    as (image' & k' & E & Hlevel).
  exists image, k, image', k'. rewrite E. auto.
Qed.

(** X3.  With the source given as it answers during each of two calls, as
    for X2: if the walk of [createValidHeightField] at a key found a raster
    at some key it asked, the walk of a later call at any descendant finds a
    raster too (to return, or to hand to the extractor), at a key at least
    as deep, provided the source has not in the meantime lost a heightfield
    it had on the ancestor chain of the key.  Nothing is said of what the
    extractor then returns. *)
Theorem createValidHeightField_descendants_resolve (first later : TileSource)
    (key descendant : TileKey) (n : nat) (k : TileKey) :
  nthParent n descendant = Some key ->
  (forall a, In a (ancestorChain key) ->
             createHeightField first a <> None ->
             createHeightField later a <> None) ->
  In k (keysAsked (createValidHeightField first key)) ->
  createHeightField first k <> None ->
  exists k',
    In k' (keysAsked (createValidHeightField later descendant))
    /\ createHeightField later k' <> None
    /\ level k <= level k'.
Proof.
  intros Hd Hstable. rewrite !createValidHeightField_chain. simpl.
  intros Hasked Hk.
  assert (Hin : In k (ancestorChain key)) by (eapply untilSuccess_In; eauto).
  apply In_nth_error in Hin as Hnth. destruct Hnth as [j Hj].
  rewrite ancestorChain_nth in Hj.
  destruct (success_at_or_below (createHeightField later) descendant k (n + j)
              (nthParent_add n j descendant key k Hd Hj)
              (Hstable k Hin Hk))
    as (hf' & k' & E & Hlevel).
  exists k'. split_ands; [|  |assumption].
  - eapply firstSuccess_asked; eauto.
  - apply firstSuccess_Some in E as (m & _ & Hr & _). congruence.
Qed.

(** X4.  If the extractor honours the sample counts it is asked for, the
    heightfield handed back always has the column and row counts of the
    raster the source produced, whether it was produced at the requested key
    or extracted from an ancestor. *)
Theorem createValidHeightField_keeps_found_dimensions (tileSource : TileSource)
    (key : TileKey) (h : HeightField) :
  (forall parentKey hf childKey columns rows,
     getNumColumns (extractChild parentKey hf childKey columns rows) = columns
     /\ getNumRows (extractChild parentKey hf childKey columns rows) = rows) ->
  outcome (createValidHeightField tileSource key) = Some h ->
  exists k hf,
    In k (keysAsked (createValidHeightField tileSource key))
    /\ createHeightField tileSource k = Some hf
    /\ getNumColumns h = getNumColumns hf
    /\ getNumRows h = getNumRows hf.
Proof.
  intros Hext. rewrite createValidHeightField_chain. simpl. intro E.
  destruct (createHeightField tileSource key) as [hf|] eqn:C.
  - injection E as <-. exists key, hf. rewrite ancestorChain_step. simpl.
    rewrite C. split_ands; auto; now left.
  - destruct (firstSuccess (createHeightField tileSource) (ancestorChain key))
      as [[hf k]|] eqn:F; [|discriminate].
    injection E as <-. exists k, hf.
    pose proof (firstSuccess_asked _ _ _ _ F) as Hin.
    apply firstSuccess_Some in F as (i & Hi & Hr & _).
    destruct (Hext k hf key (getNumColumns hf) (getNumRows hf)) as [Hc Hw].
    split_ands; auto.
Qed.

End Resolution.

Section Reconciliation.

Context `{RS : Rasters}.

Lemma Subsequence_refl {A : Type} (l : list A) : Subsequence l l.
Proof. induction l; constructor; assumption. Qed.

Lemma reconcileImageSources_Subsequence (sources : TileSourceList) :
  forall dataProfile,
  Subsequence (snd (reconcileImageSources dataProfile sources)) sources.
Proof.
  induction sources as [|itr rest IH]; intro dataProfile; simpl.
  - constructor.
  - destruct (ProfileType_eqb (profileType dataProfile) UNKNOWN).
    + specialize (IH (getProfile itr)).
      destruct (reconcileImageSources (getProfile itr) rest). now constructor.
    + specialize (IH dataProfile).
      destruct (profile_neq dataProfile (getProfile itr));
        [destruct (negb _)|];
        try (destruct (reconcileImageSources dataProfile rest));
        now constructor.
Qed.

Lemma reconcileHeightFieldSources_Subsequence (sources : TileSourceList) :
  forall dataProfile,
  Subsequence (snd (reconcileHeightFieldSources dataProfile sources)) sources.
Proof.
  induction sources as [|itr rest IH]; intro dataProfile; simpl.
  - constructor.
  - destruct (ProfileType_eqb (profileType dataProfile) UNKNOWN).
    + specialize (IH (getProfile itr)).
      destruct (reconcileHeightFieldSources (getProfile itr) rest).
      now constructor.
    + specialize (IH dataProfile).
      destruct (profile_neq dataProfile (getProfile itr));
        try (destruct (reconcileHeightFieldSources dataProfile rest));
        now constructor.
Qed.

(** X5.  [getDataProfile] is computed once: after any call the builder is
    marked as computed and holds the profile returned, and a further call
    returns the same profile and leaves the builder as it is. *)
Theorem getDataProfile_memoised (b : TileBuilder) :
  _profileComputed (builderAfter (getDataProfile b)) = true
  /\ _dataProfile (builderAfter (getDataProfile b))
     = returnValue (getDataProfile b)
  /\ getDataProfile (builderAfter (getDataProfile b))
     = (returnValue (getDataProfile b), builderAfter (getDataProfile b)).
Proof.
  unfold getDataProfile.
  destruct (_profileComputed b) eqn:E; simpl.
  - rewrite E. auto.
  - destruct (reconcileImageSources (_dataProfile b) (image_sources b))
      as [p1 images].
    destruct (reconcileHeightFieldSources p1 (heightfield_sources b))
      as [p2 heightfields]. simpl. auto.
Qed.

(** X6.  Reconciliation only removes: the image and heightfield sources
    left after [getDataProfile] are the original ones with some left out, in
    their original order, and the map configuration is untouched. *)
Theorem getDataProfile_only_removes (b : TileBuilder) :
  Subsequence (image_sources (builderAfter (getDataProfile b)))
    (image_sources b)
  /\ Subsequence (heightfield_sources (builderAfter (getDataProfile b)))
       (heightfield_sources b)
  /\ map (builderAfter (getDataProfile b)) = map b.
Proof.
  unfold getDataProfile. destruct (_profileComputed b); simpl.
  - split_ands; auto using Subsequence_refl.
  - pose proof (reconcileImageSources_Subsequence (image_sources b)
                  (_dataProfile b)) as Hi.
    destruct (reconcileImageSources (_dataProfile b) (image_sources b))
      as [p1 images].
    pose proof (reconcileHeightFieldSources_Subsequence
                  (heightfield_sources b) p1) as Hh.
    destruct (reconcileHeightFieldSources p1 (heightfield_sources b))
      as [p2 heightfields]. simpl in *. auto.
Qed.

Lemma reconcileImageSources_profile_known (dataProfile : TileGridProfile)
    (sources : TileSourceList) :
  Forall knownProfile sources ->
  profileType dataProfile <> UNKNOWN \/ sources <> [] ->
  profileType (fst (reconcileImageSources dataProfile sources)) <> UNKNOWN.
Proof.
  intros Hall Hor.
  destruct (ProfileType_eqb (profileType dataProfile) UNKNOWN) eqn:E.
  - apply ProfileType_eqb_eq in E.
    destruct sources as [|first others]; [destruct Hor; congruence|].
    inversion Hall as [|? ? Hfirst _]; subst.
    now rewrite (reconcileImageSources_seed _ _ _ E Hfirst).
  - apply ProfileType_eqb_neq in E.
    now rewrite (reconcileImageSources_known _ _ E).
Qed.

Lemma reconcileHeightFieldSources_profile_known (dataProfile : TileGridProfile)
    (sources : TileSourceList) :
  Forall knownProfile sources ->
  profileType dataProfile <> UNKNOWN \/ sources <> [] ->
  profileType (fst (reconcileHeightFieldSources dataProfile sources)) <> UNKNOWN.
Proof.
  intros Hall Hor.
  destruct (ProfileType_eqb (profileType dataProfile) UNKNOWN) eqn:E.
  - apply ProfileType_eqb_eq in E.
    destruct sources as [|first others]; [destruct Hor; congruence|].
    inversion Hall as [|? ? Hfirst _]; subst.
    now rewrite (reconcileHeightFieldSources_seed _ _ _ E Hfirst).
  - apply ProfileType_eqb_neq in E.
    now rewrite (reconcileHeightFieldSources_known _ _ E).
Qed.

Lemma getDataProfile_known (b : TileBuilder) :
  _profileComputed b = false ->
  Forall knownProfile (image_sources b) ->
  Forall knownProfile (heightfield_sources b) ->
  profileType (_dataProfile b) <> UNKNOWN
  \/ image_sources b <> [] \/ heightfield_sources b <> [] ->
  profileType (fst (getDataProfile b)) <> UNKNOWN.
Proof.
  intros Hnot Hi Hh Hor. unfold getDataProfile. rewrite Hnot.
  pose proof (reconcileImageSources_profile_known (_dataProfile b)
                (image_sources b) Hi) as Ki.
  destruct (reconcileImageSources (_dataProfile b) (image_sources b))
    as [p1 images].
  pose proof (reconcileHeightFieldSources_profile_known p1
                (heightfield_sources b) Hh) as Kh.
  destruct (reconcileHeightFieldSources p1 (heightfield_sources b))
    as [p2 heightfields]. simpl in *.
  apply Kh. destruct Hor as [Hd|[Hn|Hn]]; auto.
Qed.

(** X7.  When every source of a builder has a known profile, as the sources
    [addSources] lets in have, and there is at least one, the profile
    [getDataProfile] arrives at is known; so the first call of [isValid]
    rejects such a builder only for a projected profile under a geocentric
    map, never for an unknown profile. *)
Theorem isValid_known_sources (b : TileBuilder) :
  _profileComputed b = false ->
  Forall knownProfile (image_sources b) ->
  Forall knownProfile (heightfield_sources b) ->
  image_sources b <> [] \/ heightfield_sources b <> [] ->
  profileType (returnValue (getDataProfile b)) <> UNKNOWN
  /\ (returnValue (isValid b) = false <->
      profileType (returnValue (getDataProfile b)) = PROJECTED
      /\ getCoordinateSystemType (map b) = CSTYPE_GEOCENTRIC).
Proof.
  intros Hnot Hi Hh Hsome.
  assert (K : profileType (fst (getDataProfile b)) <> UNKNOWN)
    by (apply getDataProfile_known; auto).
  split; [exact K|].
  rewrite isValid_value, !andb_false_iff, !negb_false_iff, !andb_true_iff,
    !length_eqb_0, !ProfileType_eqb_eq, CoordinateSystemType_eqb_eq.
  split; [|tauto].
  intros [[[Ei Eh]|P]|U]; [|assumption|contradiction].
  destruct Hsome; contradiction.
Qed.

Lemma reconcileImageSources_seed_kept (dataProfile : TileGridProfile)
    (sources : TileSourceList) :
  profileType dataProfile = UNKNOWN -> sources <> [] ->
  snd (reconcileImageSources dataProfile sources) <> [].
Proof.
  intros Hu Hne. destruct sources as [|itr rest]; [congruence|]. simpl.
  rewrite Hu. simpl.
  destruct (reconcileImageSources (getProfile itr) rest). discriminate.
Qed.

Lemma reconcileHeightFieldSources_seed_kept (dataProfile : TileGridProfile)
    (sources : TileSourceList) :
  profileType dataProfile = UNKNOWN -> sources <> [] ->
  snd (reconcileHeightFieldSources dataProfile sources) <> [].
Proof.
  intros Hu Hne. destruct sources as [|itr rest]; [congruence|]. simpl.
  rewrite Hu. simpl.
  destruct (reconcileHeightFieldSources (getProfile itr) rest). discriminate.
Qed.

Lemma reconcileImageSources_nil (dataProfile : TileGridProfile) :
  reconcileImageSources dataProfile [] = (dataProfile, []).
Proof. reflexivity. Qed.

(** With no profile set beforehand, reconciliation never empties a builder
    that had a source. *)
Lemma getDataProfile_keeps_a_source (b : TileBuilder) :
  _profileComputed b = true \/ profileType (_dataProfile b) = UNKNOWN ->
  image_sources b <> [] \/ heightfield_sources b <> [] ->
  image_sources (snd (getDataProfile b)) <> []
  \/ heightfield_sources (snd (getDataProfile b)) <> [].
Proof.
  intros Hpre Hsome. unfold getDataProfile.
  destruct (_profileComputed b) eqn:E; simpl; [assumption|].
  destruct Hpre as [Hc|Hu]; [discriminate|].
  destruct (image_sources b) as [|i rest] eqn:Ei.
  - simpl.
    pose proof (reconcileHeightFieldSources_seed_kept
                  (_dataProfile b) (heightfield_sources b) Hu) as K.
    destruct (reconcileHeightFieldSources (_dataProfile b)
                (heightfield_sources b)) as [p2 heightfields]. simpl in *.
    right. apply K. destruct Hsome; congruence.
  - pose proof (reconcileImageSources_seed_kept (_dataProfile b) (i :: rest) Hu)
      as K.
    destruct (reconcileImageSources (_dataProfile b) (i :: rest))
      as [p1 images].
    destruct (reconcileHeightFieldSources p1 (heightfield_sources b))
      as [p2 heightfields]. simpl in *. left. apply K. discriminate.
Qed.

Lemma isValid_state (b : TileBuilder) :
  snd (isValid b) =
  if (List.length (image_sources b) =? 0)
     && (List.length (heightfield_sources b) =? 0)
  then b else snd (getDataProfile b).
Proof.
  unfold isValid.
  pose proof (getDataProfile_again b) as Hagain.
  destruct (getDataProfile b) as [p1 b1]. simpl in Hagain. simpl snd.
  destruct ((List.length (image_sources b) =? 0)
            && (List.length (heightfield_sources b) =? 0)); [reflexivity|].
  rewrite Hagain.
  destruct (ProfileType_eqb (profileType p1) PROJECTED && _); [reflexivity|].
  destruct (ProfileType_eqb (profileType p1) UNKNOWN); reflexivity.
Qed.

(** X8.  Unless a profile was set before the profile has been computed,
    asking [isValid] again gives the same answer and leaves the builder as
    the first call left it; in particular a builder declared valid still has
    a source. *)
Theorem isValid_again_without_preset (b : TileBuilder) :
  _profileComputed b = true \/ profileType (_dataProfile b) = UNKNOWN ->
  isValid (builderAfter (isValid b)) = isValid b
  /\ (returnValue (isValid b) = true ->
      image_sources (builderAfter (isValid b)) <> []
      \/ heightfield_sources (builderAfter (isValid b)) <> []).
Proof.
  intro Hpre.
  assert (Hstate : snd (isValid (snd (isValid b))) = snd (isValid b)
                   /\ fst (isValid (snd (isValid b))) = fst (isValid b)
                   /\ (fst (isValid b) = true ->
                       image_sources (snd (isValid b)) <> []
                       \/ heightfield_sources (snd (isValid b)) <> [])).
  { rewrite !isValid_value, !isValid_state.
    destruct ((List.length (image_sources b) =? 0)
              && (List.length (heightfield_sources b) =? 0)) eqn:E.
    - rewrite E. simpl. split_ands; auto. discriminate.
    - assert (Hsome : image_sources b <> [] \/ heightfield_sources b <> []).
      { apply andb_false_iff in E as [E|E]; [left|right]; intro N;
          rewrite N in E; discriminate. }
      pose proof (getDataProfile_keeps_a_source b Hpre Hsome) as K.
      assert (E' : (List.length (image_sources (snd (getDataProfile b))) =? 0)
                   && (List.length (heightfield_sources (snd (getDataProfile b)))
                       =? 0) = false).
      { apply andb_false_iff.
        destruct K as [K|K]; [left|right];
          apply not_true_is_false; intro T; apply length_eqb_0 in T;
          contradiction. }
      rewrite E', getDataProfile_again, getDataProfile_map. simpl.
      split_ands; auto. }
  destruct Hstate as (H1 & H2 & H3). split; [|exact H3].
  destruct (isValid (snd (isValid b))) as [v' b'].
  destruct (isValid b) as [v b1]. simpl in *. congruence.
Qed.

End Reconciliation.

Section SetupFacts.

Context `{RS : Rasters}.

Variable CacheConfig : Type.
Variable loadTileSource :
  option Options -> MapDescription CacheConfig -> SourceConfig CacheConfig ->
  option TileSource.
Variable createCachedSource :
  option TileSource -> CacheConfig -> option Options ->
  MapDescription CacheConfig -> SourceConfig CacheConfig -> option TileSource.
Variable profileOfType : ProfileType -> TileGridProfile.
Variable STR_GLOBAL_MERCATOR : string.
Variable STR_GLOBAL_GEODETIC : string.

Local Abbreviation sourceToAdd' :=
  (sourceToAdd loadTileSource createCachedSource).
Local Abbreviation addSources' :=
  (addSources loadTileSource createCachedSource).
Local Abbreviation contribution :=
  (contribution loadTileSource createCachedSource).
Local Abbreviation newTileBuilder' :=
  (newTileBuilder loadTileSource createCachedSource profileOfType
     STR_GLOBAL_MERCATOR STR_GLOBAL_GEODETIC).

Lemma addSources_flat_map (mapConfig : MapDescription CacheConfig)
    (url_template : string) (global_options : option Options)
    (from : list (SourceConfig CacheConfig)) :
  forall to,
  addSources' mapConfig from to url_template global_options =
  to ++ flat_map (contribution mapConfig global_options) from.
Proof.
  induction from as [|source rest IH]; intro to; simpl.
  - now rewrite app_nil_r.
  - rewrite IH. unfold TileBuilderSetup.contribution.
    destruct (sourceToAdd' mapConfig global_options source) as [s|];
      [|reflexivity].
    destruct (negb (ProfileType_eqb (profileType (getProfile s)) UNKNOWN));
      [|reflexivity].
    now rewrite <- app_assoc.
Qed.

Lemma contribution_known (mapConfig : MapDescription CacheConfig)
    (global_options : option Options) (source : SourceConfig CacheConfig) :
  Forall knownProfile (contribution mapConfig global_options source)
  /\ List.length (contribution mapConfig global_options source) <= 1.
Proof.
  unfold TileBuilderSetup.contribution.
  destruct (sourceToAdd' mapConfig global_options source) as [s|];
    [|split; [constructor|simpl; lia]].
  destruct (ProfileType_eqb (profileType (getProfile s)) UNKNOWN) eqn:E; simpl.
  - split; [constructor|lia].
  - split; [|lia]. constructor; [|constructor].
    now apply ProfileType_eqb_neq.
Qed.

Lemma addSources_appends_known_sources_aux
    (mapConfig : MapDescription CacheConfig)
    (from : list (SourceConfig CacheConfig)) (to : TileSourceList)
    (url_template : string) (global_options : option Options) :
  exists added,
    addSources' mapConfig from to url_template global_options = to ++ added
    /\ Forall knownProfile added.
Proof.
  exists (flat_map (contribution mapConfig global_options) from).
  split; [apply addSources_flat_map|].
  induction from as [|source rest IH]; simpl; [constructor|].
  apply Forall_app. split; [|assumption]. apply contribution_known.
Qed.


Lemma sourceToAdd_offline
    (load : option Options -> MapDescription CacheConfig ->
            SourceConfig CacheConfig -> option TileSource)
    (mapConfig : MapDescription CacheConfig) (global_options : option Options)
    (source : SourceConfig CacheConfig) :
  getCacheOnly mapConfig = true ->
  sourceToAdd load createCachedSource mapConfig global_options source
  = match match sourceCacheConfig source with
          | Some c => Some c
          | None => mapCacheConfig mapConfig
          end with
    | Some c => createCachedSource None c global_options mapConfig source
    | None => None
    end.
Proof.
  intro Hoff. unfold sourceToAdd. rewrite Hoff. simpl.
  destruct (sourceCacheConfig source) as [c|];
    [|destruct (mapCacheConfig mapConfig) as [c|]];
    try reflexivity;
    now destruct (createCachedSource None c global_options mapConfig source).
Qed.

Lemma addSources_offline_same
    (load1 load2 : option Options -> MapDescription CacheConfig ->
                   SourceConfig CacheConfig -> option TileSource)
    (mapConfig : MapDescription CacheConfig)
    (from : list (SourceConfig CacheConfig)) (url_template : string)
    (global_options : option Options) :
  getCacheOnly mapConfig = true ->
  forall to,
  addSources load1 createCachedSource mapConfig from to
    url_template global_options
  = addSources load2 createCachedSource mapConfig from to
      url_template global_options.
Proof.
  intro Hoff. induction from as [|source rest IH]; intro to; simpl.
  - reflexivity.
  - rewrite (sourceToAdd_offline load1 _ _ _ Hoff),
      (sourceToAdd_offline load2 _ _ _ Hoff). apply IH.
Qed.

Lemma addSources_offline_nothing
    (load : option Options -> MapDescription CacheConfig ->
            SourceConfig CacheConfig -> option TileSource)
    (mapConfig : MapDescription CacheConfig)
    (from : list (SourceConfig CacheConfig)) (url_template : string)
    (global_options : option Options) :
  getCacheOnly mapConfig = true ->
  mapCacheConfig mapConfig = None ->
  (forall source, In source from -> sourceCacheConfig source = None) ->
  forall to,
  addSources load createCachedSource mapConfig from to
    url_template global_options = to.
Proof.
  intros Hoff Hmap. induction from as [|source rest IH]; intros Hsources to;
    simpl.
  - reflexivity.
  - rewrite (sourceToAdd_offline load _ _ _ Hoff),
      (Hsources source (or_introl eq_refl)), Hmap.
    apply IH. intros s Hin. apply Hsources. now right.
Qed.

(** X10.  In cache-only mode [addSources] never loads a driver: its result
    is the same whatever the plugin loader would have answered; and when
    neither the map nor any source has a cache configuration it adds
    nothing. *)
Theorem addSources_offline_never_loads
    (load1 load2 : option Options -> MapDescription CacheConfig ->
                   SourceConfig CacheConfig -> option TileSource)
    (mapConfig : MapDescription CacheConfig)
    (from : list (SourceConfig CacheConfig)) (to : TileSourceList)
    (url_template : string) (global_options : option Options) :
  getCacheOnly mapConfig = true ->
  addSources load1 createCachedSource mapConfig from to
    url_template global_options
  = addSources load2 createCachedSource mapConfig from to
      url_template global_options
  /\ (mapCacheConfig mapConfig = None ->
      (forall source, In source from -> sourceCacheConfig source = None) ->
      addSources load1 createCachedSource mapConfig from to
        url_template global_options = to).
Proof.
  intro Hoff. split.
  - now apply addSources_offline_same.
  - intros Hmap Hsources. now apply addSources_offline_nothing.
Qed.

Lemma newTileBuilder_sources_known (map : MapDescription CacheConfig)
    (url_template : string) (options : option Options) :
  Forall knownProfile (image_sources (newTileBuilder' map url_template options))
  /\ Forall knownProfile
       (heightfield_sources (newTileBuilder' map url_template options)).
Proof.
  unfold newTileBuilder. simpl. split.
  - destruct (addSources_appends_known_sources_aux map (getImageSources map)
                [] url_template options) as (added & E & K).
    rewrite E. exact K.
  - destruct (addSources_appends_known_sources_aux map
                (getHeightFieldSources map) [] url_template options)
      as (added & E & K).
    rewrite E. exact K.
Qed.

(** X11.  A map profile that names global-mercator, or else
    global-geodetic, overrides the sources: that profile is what
    [getDataProfile] returns for the new builder whatever the sources are,
    every image source left is compatible with it and every heightfield
    source left has a profile [operator!=] does not tell from it. *)
Theorem newTileBuilder_override_wins (map : MapDescription CacheConfig)
    (url_template : string) (options : option Options)
    (override : ProfileType) :
  profileType (profileOfType GLOBAL_MERCATOR) = GLOBAL_MERCATOR ->
  profileType (profileOfType GLOBAL_GEODETIC) = GLOBAL_GEODETIC ->
  (mapProfile map = STR_GLOBAL_MERCATOR /\ override = GLOBAL_MERCATOR)
  \/ (mapProfile map <> STR_GLOBAL_MERCATOR
      /\ mapProfile map = STR_GLOBAL_GEODETIC
      /\ override = GLOBAL_GEODETIC) ->
  returnValue (getDataProfile (newTileBuilder' map url_template options))
    = profileOfType override
  /\ Forall (fun s => imageCompatible (profileOfType override) s = true)
       (image_sources
          (builderAfter
             (getDataProfile (newTileBuilder' map url_template options))))
  /\ Forall (fun s => heightFieldCompatible (profileOfType override) s = true)
       (heightfield_sources
          (builderAfter
             (getDataProfile (newTileBuilder' map url_template options)))).
Proof.
  intros Hm Hg Hcase.
  assert (Hdp : _dataProfile (newTileBuilder' map url_template options)
                = profileOfType override
                /\ profileType (profileOfType override) <> UNKNOWN).
  { unfold newTileBuilder. simpl.
    destruct Hcase as [[E ->]|(N & E & ->)].
    - rewrite E, String.eqb_refl. split; [reflexivity|congruence].
    - apply String.eqb_neq in N. rewrite N, E, String.eqb_refl.
      split; [reflexivity|congruence]. }
  destruct Hdp as [Hdp Hknown].
  unfold getDataProfile.
  replace (_profileComputed (newTileBuilder' map url_template options))
    with false by reflexivity.
  rewrite Hdp, (reconcileImageSources_known _ _ Hknown),
    (reconcileHeightFieldSources_known _ _ Hknown). simpl.
  split_ands; [reflexivity| |]; apply Forall_forall; intros s Hin;
    apply filter_In in Hin; tauto.
Qed.

(** X12.  A freshly constructed builder is never rejected for an unknown
    profile: the first call of [isValid] answers false exactly when no
    source was let in, or the profile arrived at is projected while the map
    is geocentric.  In cache-only mode with no cache configured anywhere it
    is rejected. *)
Theorem newTileBuilder_isValid (map : MapDescription CacheConfig)
    (url_template : string) (options : option Options) :
  profileType (profileOfType GLOBAL_MERCATOR) = GLOBAL_MERCATOR ->
  profileType (profileOfType GLOBAL_GEODETIC) = GLOBAL_GEODETIC ->
  (returnValue (isValid (newTileBuilder' map url_template options)) = false <->
   (image_sources (newTileBuilder' map url_template options) = []
    /\ heightfield_sources (newTileBuilder' map url_template options) = [])
   \/ (profileType
         (returnValue
            (getDataProfile (newTileBuilder' map url_template options)))
       = PROJECTED
       /\ mapCoordinateSystemType map = CSTYPE_GEOCENTRIC))
  /\ (getCacheOnly map = true ->
      mapCacheConfig map = None ->
      (forall source,
         In source (getImageSources map ++ getHeightFieldSources map) ->
         sourceCacheConfig source = None) ->
      returnValue (isValid (newTileBuilder' map url_template options)) = false).
Proof.
  intros Hm Hg.
  destruct (newTileBuilder_sources_known map url_template options) as [Ki Kh].
  assert (Hiff : fst (isValid (newTileBuilder' map url_template options)) = false <->
   (image_sources (newTileBuilder' map url_template options) = []
    /\ heightfield_sources (newTileBuilder' map url_template options) = [])
   \/ (profileType
         (fst (getDataProfile (newTileBuilder' map url_template options)))
       = PROJECTED
       /\ mapCoordinateSystemType map = CSTYPE_GEOCENTRIC)).
  { rewrite isValid_value, !andb_false_iff, !negb_false_iff, !andb_true_iff,
      !length_eqb_0, !ProfileType_eqb_eq, CoordinateSystemType_eqb_eq.
    replace (getCoordinateSystemType
               (TileBuilder.map (newTileBuilder' map url_template options)))
      with (mapCoordinateSystemType map) by reflexivity.
    split; [|tauto].
    intros [[E|P]|U]; [left; exact E|right; exact P|].
    assert (Hne : image_sources (newTileBuilder' map url_template options) <> []
                  \/ heightfield_sources
                       (newTileBuilder' map url_template options) <> [] ->
                  False).
    { intro Hsome.
      apply (getDataProfile_known (newTileBuilder' map url_template options)
               eq_refl Ki Kh); [right; exact Hsome|exact U]. }
    left. split.
    - destruct (image_sources (newTileBuilder' map url_template options))
        eqn:Ei; [reflexivity|].
      exfalso. apply Hne. left. discriminate.
    - destruct (heightfield_sources (newTileBuilder' map url_template options))
        eqn:Eh; [reflexivity|].
      exfalso. apply Hne. right. discriminate. }
  split; [exact Hiff|].
  intros Hoff Hmap Hsources. apply Hiff. left.
  unfold newTileBuilder. simpl. split.
  - apply addSources_offline_nothing; auto.
    intros source Hin. apply Hsources. apply in_or_app. now left.
  - apply addSources_offline_nothing; auto.
    intros source Hin. apply Hsources. apply in_or_app. now right.
Qed.

End SetupFacts.

Section UriAndRegistry.

Context `{RS : Rasters}.

Variable str : TileKey -> string.

Lemma string_length_append (s1 s2 : string) :
  String.length (s1 ++ s2) = String.length s1 + String.length s2.
Proof. induction s1 as [|c s1 IH]; simpl; [reflexivity|now rewrite IH]. Qed.

Lemma string_append_inv_tail (t : string) : forall s1 s2 : string,
  (s1 ++ t)%string = (s2 ++ t)%string -> s1 = s2.
Proof.
  induction s1 as [|c s1 IH]; intros [|c' s2] E; simpl in E.
  - reflexivity.
  - apply (f_equal String.length) in E. simpl in E.
    rewrite string_length_append in E. lia.
  - apply (f_equal String.length) in E. simpl in E.
    rewrite string_length_append in E. lia.
  - injection E as -> E. f_equal. now apply IH.
Qed.

(** X13.  Under one URL template, two keys get the same URI only when
    [TileKey::str] gives the same string for both; and the URI of a key is
    never the bare template. *)
Theorem createURI_tells_keys_apart (url_template : string) (k1 k2 : TileKey) :
  (createURI str url_template k1 = createURI str url_template k2 <->
   str k1 = str k2)
  /\ createURI str url_template k1 <> url_template.
Proof.
  unfold createURI. split.
  - split; [|now intros ->]. apply string_append_inv_tail.
  - intro E. apply (f_equal String.length) in E.
    rewrite !string_length_append in E. simpl in E. lia.
Qed.

Variable CacheConfig : Type.
Variable showPort : N -> string.
Variable Builder : Type.
Variable newGeocentricTileBuilder :
  MapDescription CacheConfig -> string -> option Options -> Builder.
Variable newProjectedTileBuilder :
  MapDescription CacheConfig -> string -> option Options -> Builder.

Local Abbreviation create' :=
  (create showPort newGeocentricTileBuilder newProjectedTileBuilder).

(** X14.  What [create] returns is what [getTileBuilderByUrlTemplate] finds
    under the same template afterwards, and the builders registered under
    other templates are found as before.  With a map the result is never
    null; with a null map the result is null, and it replaces whatever was
    registered under the template. *)
Theorem create_then_lookup (registry : TileBuilderMap Builder)
    (map : option (MapDescription CacheConfig)) (url_template : string) :
  getTileBuilderByUrlTemplate (snd (create' registry map url_template))
    url_template
    = fst (create' registry map url_template)
  /\ (forall other,
        other <> url_template ->
        getTileBuilderByUrlTemplate (snd (create' registry map url_template))
          other
        = getTileBuilderByUrlTemplate registry other)
  /\ (fst (create' registry map url_template) = None <-> map = None).
Proof.
  unfold create, getTileBuilderByUrlTemplate, store. simpl. split_ands.
  - now rewrite String.eqb_refl.
  - intros other Hother. apply String.eqb_neq in Hother. now rewrite Hother.
  - destruct map as [m|]; [|tauto].
    destruct (mapCoordinateSystemType m); split; discriminate.
Qed.

End UriAndRegistry.

End TileBuilderMoreFacts.

(* ===================================================================== *)
(** * Further properties of MapFrame.cpp *)
(* ===================================================================== *)

Module MapFrameMoreFacts.

Import MapFrame MapFrameFacts.
Import MapFrameState(letsPass).

Section Verdict.

Context {TileKey Cache : Type}.

Local Abbreviation TerrainLayer := (@TerrainLayer TileKey).
Local Abbreviation Layer := (@Layer TileKey).
Local Abbreviation MapFrame := (@MapFrame TileKey Cache).

Lemma verdictByRules_forallb (key : TileKey) (layers : list Layer) :
  forall i, fst (verdictByRules key i layers) = forallb (letsPass key) layers.
Proof.
  induction layers as [|[layer|] rest IH]; intro i; simpl.
  - reflexivity.
  - destruct (ruling key layer (firstApplicable key layer)); simpl; auto.
  - apply IH.
Qed.

Lemma isCached_verdict (mf : MapFrame) (key : TileKey) :
  fst (isCached mf key) =
  negb (mapWithoutCache mf) && forallb (letsPass key) (_layers mf).
Proof.
  destruct (mapWithoutCache mf) eqn:G.
  - now rewrite (isCached_guard_on _ _ G).
  - rewrite (isCached_guard_off _ _ G). apply verdictByRules_forallb.
Qed.

Lemma forallb_Permutation {A : Type} (f : A -> bool) (l l' : list A) :
  Permutation l l' -> forallb f l = forallb f l'.
Proof.
  induction 1; simpl; try congruence.
  - now destruct (f x), (f y).
Qed.

(** X15.  The verdict of [isCached] does not depend on the order of the
    layers: two frames over the same map whose layer lists are permutations
    of each other get the same verdict for every key. *)
Theorem isCached_verdict_order_independent (mf mf' : MapFrame) (key : TileKey) :
  _map mf = _map mf' ->
  Permutation (_layers mf) (_layers mf') ->
  verdict (isCached mf key) = verdict (isCached mf' key).
Proof.
  intros Hmap Hperm. rewrite !isCached_verdict.
  unfold mapWithoutCache. rewrite Hmap. f_equal.
  now apply forallb_Permutation.
Qed.

(** X16.  The verdict over a layer list put together from two is the
    conjunction of the verdicts over each: more layers can turn a true
    verdict into false, never a false one into true.  A layer that is not a
    terrain layer, or whose first applicable rule is one of the skipping
    rules, can be taken out without changing the verdict. *)
Theorem isCached_verdict_of_joined_layers (map : option (@Map Cache))
    (layers more : list Layer) (key : TileKey) :
  verdict (isCached (mkMapFrame map (layers ++ more)) key)
    = verdict (isCached (mkMapFrame map layers) key)
      && verdict (isCached (mkMapFrame map more) key)
  /\ (forall l, letsPass key l = true ->
        verdict (isCached (mkMapFrame map (layers ++ l :: more)) key)
        = verdict (isCached (mkMapFrame map (layers ++ more)) key)).
Proof.
  rewrite !isCached_verdict. unfold mapWithoutCache. simpl. split.
  - rewrite forallb_app.
    destruct (match map with Some m => _ | None => false end); simpl;
      [reflexivity|].
    reflexivity.
  - intros l Hl. rewrite !isCached_verdict. simpl.
    rewrite !forallb_app. simpl. now rewrite Hl.
Qed.

Lemma upTo_NoDup (r : Rule) : NoDup (List.map checkOf (upTo r priorityOrder)).
Proof.
  destruct r; simpl;
    repeat (constructor; [simpl; intuition discriminate|]); constructor.
Qed.

Lemma upTo_length (r : Rule) : List.length (upTo r priorityOrder) <= 7.
Proof. destruct r; simpl; lia. Qed.

Lemma checksFor_NoDup (i : nat) (r : Rule) : NoDup (checksFor i r).
Proof.
  unfold checksFor. destruct r; simpl;
    repeat (constructor; [simpl; intuition congruence|]); constructor.
Qed.

Lemma verdictByRules_calls (key : TileKey) (layers : list Layer) :
  forall i j c,
  In (j, c) (snd (verdictByRules key i layers)) ->
  i <= j
  /\ exists layer,
       nth_error layers (j - i) = Some (IsTerrainLayer layer)
       /\ In c (List.map checkOf (upTo (firstApplicable key layer) priorityOrder)).
Proof.
  induction layers as [|[layer|] rest IH]; intros i j c Hin;
    cbn [verdictByRules] in Hin.
  - destruct Hin.
  - assert (Here : In (j, c) (checksFor i (firstApplicable key layer)) ->
                   i <= j /\
                   exists layer0,
                     nth_error (IsTerrainLayer layer :: rest) (j - i)
                       = Some (IsTerrainLayer layer0)
                     /\ In c (List.map checkOf
                                (upTo (firstApplicable key layer0) priorityOrder))).
    { intro Hc. pose proof (checksFor_index _ _ _ _ Hc) as ->.
      split; [lia|]. exists layer. rewrite Nat.sub_diag. split; [reflexivity|].
      unfold checksFor in Hc. apply in_map_iff in Hc as (x & E & Hx).
      injection E as <-. now apply in_map. }
    destruct (ruling key layer (firstApplicable key layer));
      cbn [fst snd] in Hin.
    + apply in_app_or in Hin as [Hc|Hrest]; [auto|].
      apply IH in Hrest as (Hle & layer0 & Hn & Hc).
      split; [lia|]. exists layer0. split; [|assumption].
      replace (j - i) with (S (j - S i)) by lia. exact Hn.
    + auto.
  - apply IH in Hin as (Hle & layer0 & Hn & Hc).
    split; [lia|]. exists layer0. split; [|assumption].
    replace (j - i) with (S (j - S i)) by lia. exact Hn.
Qed.

(** X17.  The cache-presence check of a layer, the one check that may read
    the cache, is only ever made on a terrain layer that is enabled, has the
    normal cache policy, may have data at the key, has a tile source and
    does not have the key blacklisted, and only when the map is gone or has
    a cache. *)
Theorem isCached_reads_cache_only_when_needed (mf : MapFrame) (key : TileKey)
    (i : nat) :
  In (i, LayerIsCached) (callsMade (isCached mf key)) ->
  mapWithoutCache mf = false
  /\ exists layer src,
       nth_error (_layers mf) i = Some (IsTerrainLayer layer)
       /\ getEnabled layer = true
       /\ cachePolicy layer = Normal
       /\ mayHaveData layer key = true
       /\ getTileSource layer = Some src
       /\ blacklistContains src key = false.
Proof.
  intro Hin. destruct (mapWithoutCache mf) eqn:G.
  - rewrite (isCached_guard_on _ _ G) in Hin. destruct Hin.
  - split; [reflexivity|]. rewrite (isCached_guard_off _ _ G) in Hin.
    apply verdictByRules_calls in Hin as (_ & layer & Hn & Hc).
    rewrite Nat.sub_0_r in Hn.
    unfold firstApplicable in Hc. simpl in Hc.
    destruct (getEnabled layer) eqn:E1; simpl in Hc;
      [|intuition discriminate].
    destruct (cachePolicy layer) eqn:E2; simpl in Hc;
      try (intuition discriminate).
    destruct (mayHaveData layer key) eqn:E3; simpl in Hc;
      [|intuition discriminate].
    destruct (getTileSource layer) as [src|] eqn:E4; simpl in Hc;
      [|intuition discriminate].
    destruct (blacklistContains src key) eqn:E5; simpl in Hc;
      [intuition discriminate|].
    exists layer, src. split_ands; auto.
Qed.

Lemma verdictByRules_NoDup (key : TileKey) (layers : list Layer) :
  forall i, NoDup (snd (verdictByRules key i layers))
            /\ List.length (snd (verdictByRules key i layers))
               <= 7 * List.length layers.
Proof.
  induction layers as [|[layer|] rest IH]; intro i;
    cbn [verdictByRules List.length].
  - split; [constructor|simpl; lia].
  - destruct (IH (S i)) as [IH1 IH2].
    assert (L : List.length (checksFor i (firstApplicable key layer)) <= 7).
    { unfold checksFor. rewrite length_map. apply upTo_length. }
    destruct (ruling key layer (firstApplicable key layer)); cbn [fst snd].
    + split; [|rewrite length_app; lia].
      apply NoDup_app; [apply checksFor_NoDup|exact IH1|].
      intros [j c] Hc Hrest. apply checksFor_index in Hc.
      apply verdictByRules_calls in Hrest as [Hle _]. lia.
    + split; [apply checksFor_NoDup|lia].
  - destruct (IH (S i)) as [IH1 IH2]. split; [assumption|lia].
Qed.

(** X18.  Of the seven checks [isCached] makes on a layer ([getEnabled],
    [isCacheOnly], [isCacheDisabled], [mayHaveData], [getTileSource], the
    blacklist's [contains] and the layer's [isCached]) none is made twice
    on the same layer, so there are at most seven for each layer, and all
    are made on layers of the frame.  The accessors [getCacheSettings()] and
    [cachePolicy()] that lead to the two policy checks are not counted: the
    source goes through them once for each of the two. *)
Theorem isCached_check_budget (mf : MapFrame) (key : TileKey) :
  NoDup (callsMade (isCached mf key))
  /\ List.length (callsMade (isCached mf key)) <= 7 * List.length (_layers mf)
  /\ (forall i c, In (i, c) (callsMade (isCached mf key)) ->
                  i < List.length (_layers mf)).
Proof.
  destruct (mapWithoutCache mf) eqn:G.
  - rewrite (isCached_guard_on _ _ G). simpl.
    split_ands; [constructor|lia|intros i c []].
  - rewrite (isCached_guard_off _ _ G).
    destruct (verdictByRules_NoDup key (_layers mf) 0) as [N L].
    split_ands; [assumption|assumption|].
    intros i c Hin. apply verdictByRules_calls in Hin as (_ & layer & Hn & _).
    rewrite Nat.sub_0_r in Hn. apply nth_error_Some. congruence.
Qed.

End Verdict.

Section LifeCycle.

Import MapFrameState.

Context {TileKey Cache : Type}.

Variable ElevationPool : Type.

Local Abbreviation LayerObject := (@LayerObject TileKey).
Local Abbreviation Frame := (@MapFrameState.MapFrame TileKey Cache ElevationPool).
Local Abbreviation MapObject := (@MapObject Cache ElevationPool).

Variable Map_sync : MapObject -> Frame -> bool * Frame.

Local Abbreviation sync' := (sync Map_sync).
Local Abbreviation setMap' := (setMap Map_sync).

Lemma refreshLoop_elevations (layers : list LayerObject) :
  forall h e, snd (refreshLoop layers h e) = e ++ filter isElevation layers.
Proof.
  induction layers as [|i rest IH]; intros h e; simpl.
  - now rewrite app_nil_r.
  - unfold isElevation. destruct (layerClass i) as [|layer m elevation].
    + apply IH.
    + rewrite IH. destruct elevation; [now rewrite <- app_assoc|reflexivity].
Qed.

Lemma refreshLoop_highest_indep (layers : list LayerObject) :
  forall h e e', fst (refreshLoop layers h e) = fst (refreshLoop layers h e').
Proof.
  induction layers as [|i rest IH]; intros h e e'; simpl.
  - reflexivity.
  - destruct (layerClass i) as [|layer m elevation]; auto.
Qed.

Lemma refreshLoop_highest_ge (layers : list LayerObject) :
  forall h e, (h <= fst (refreshLoop layers h e))%N.
Proof.
  induction layers as [|i rest IH]; intros h e; simpl.
  - lia.
  - destruct (layerClass i) as [|layer [value|] elevation]; try apply IH.
    destruct (N.ltb h value) eqn:E.
    + apply N.ltb_lt in E. etransitivity; [|apply IH]. lia.
    + apply IH.
Qed.

Lemma refreshLoop_bound (layers : list LayerObject) :
  forall h e l m,
  In l layers -> minLevelOf l = Some m ->
  (m <= fst (refreshLoop layers h e))%N.
Proof.
  induction layers as [|i rest IH]; intros h e l m Hin Hm; simpl.
  - destruct Hin.
  - destruct Hin as [<-|Hin].
    + unfold minLevelOf in Hm.
      destruct (layerClass i) as [|layer minLevel elevation]; [discriminate|].
      subst minLevel. destruct (N.ltb h m) eqn:E.
      * apply refreshLoop_highest_ge.
      * apply N.ltb_ge in E. etransitivity; [exact E|].
        apply refreshLoop_highest_ge.
    + destruct (layerClass i) as [|layer minLevel elevation]; eauto.
Qed.

Lemma refreshLoop_attained (layers : list LayerObject) :
  forall h e,
  fst (refreshLoop layers h e) = h
  \/ exists l, In l layers /\ minLevelOf l = Some (fst (refreshLoop layers h e)).
Proof.
  induction layers as [|i rest IH]; intros h e; simpl.
  - now left.
  - destruct (layerClass i) as [|layer [value|] elevation] eqn:C.
    + destruct (IH h e) as [E|(l & Hl & Hm)]; [now left|].
      right. exists l. split; [now right|assumption].
    + match goal with |- context [refreshLoop rest ?h' ?e'] =>
        destruct (IH h' e') as [E|(l & Hl & Hm)]
      end.
      * destruct (N.ltb h value); [|now left].
        right. exists i. split; [now left|].
        unfold minLevelOf. rewrite C. now rewrite E.
      * right. exists l. split; [now right|assumption].
    + match goal with |- context [refreshLoop rest ?h' ?e'] =>
        destruct (IH h' e') as [E|(l & Hl & Hm)]
      end; [now left|].
      right. exists l. split; [now right|assumption].
Qed.

Lemma refreshComputedValues_eq (f : Frame) :
  refreshComputedValues f =
  mkMapFrame (_initialized f) (_map f) (_mapInfo f)
    (fst (refreshLoop (_layers f) 0%N [])) (_mapDataModelRevision f)
    (_layers f) (filter isElevation (_layers f)) (_pool f).
Proof.
  unfold refreshComputedValues.
  pose proof (refreshLoop_elevations (_layers f) 0%N []) as E.
  destruct (refreshLoop (_layers f) 0%N []) as [highest elevations].
  simpl in *. now rewrite E.
Qed.

(** X19.  After [refreshComputedValues] the highest minimum level is at
    least the minimum level of every terrain layer of the frame that sets
    one, and it is either 0 or the minimum level set by one of them. *)
Theorem refreshComputedValues_highest_min_level (f : Frame) :
  (forall l m,
     In l (_layers f) -> minLevelOf l = Some m ->
     (m <= _highestMinLevel (refreshComputedValues f))%N)
  /\ (_highestMinLevel (refreshComputedValues f) = 0%N
      \/ exists l,
           In l (_layers f)
           /\ minLevelOf l = Some (_highestMinLevel (refreshComputedValues f))).
Proof.
  rewrite refreshComputedValues_eq. simpl. split.
  - intros l m. apply refreshLoop_bound.
  - apply refreshLoop_attained.
Qed.

(** X20.  After [refreshComputedValues] the elevation layers are exactly
    the elevation layers among the frame's layers, in the same order.  The
    values found beforehand in the two computed members play no part, so a
    second refresh changes nothing. *)
Theorem refreshComputedValues_elevation_layers (f : Frame) :
  _elevationLayers (refreshComputedValues f) = filter isElevation (_layers f)
  /\ (forall stale_level stale_layers,
        refreshComputedValues
          (mkMapFrame (_initialized f) (_map f) (_mapInfo f) stale_level
             (_mapDataModelRevision f) (_layers f) stale_layers (_pool f))
        = refreshComputedValues f)
  /\ refreshComputedValues (refreshComputedValues f) = refreshComputedValues f.
Proof.
  rewrite !refreshComputedValues_eq. simpl. split_ands; try reflexivity.
  intros stale_level stale_layers. now rewrite !refreshComputedValues_eq.
Qed.

(** X21.  When the map of a frame is gone, [needsSync] answers false, yet
    [sync] reports a change every time it is called; it empties the layers
    and the elevation layers, keeps the highest minimum level it finds, and
    the frame it leaves is fully cached at every key, no layer being
    asked. *)
Theorem sync_without_map (f : Frame) (key : TileKey) :
  _map f = None ->
  needsSync f = false
  /\ fst (sync' f) = true
  /\ fst (sync' (snd (sync' f))) = true
  /\ _layers (snd (sync' f)) = []
  /\ _elevationLayers (snd (sync' f)) = []
  /\ _highestMinLevel (snd (sync' f)) = _highestMinLevel f
  /\ MapFrameState.isCached (snd (sync' f)) key = (true, []).
Proof.
  destruct f as [initialized map mapInfo highest revision layers elevations pool].
  simpl. intros ->. split_ands; reflexivity.
Qed.

(** X22.  [release] leaves a frame that contains no layer and whose verdict
    for every key is false when the map is alive without a cache and true
    otherwise, no layer being asked; such a frame needs a sync exactly when
    its map is still there. *)
Theorem release_empties_frame (f : Frame) :
  (forall uid, containsLayer (release f) uid = false)
  /\ (forall key,
        MapFrameState.isCached (release f) key
        = (negb (mapWithoutCache (cacheView f)), []))
  /\ needsSync (release f) = MapFrameState.isValid f.
Proof.
  split_ands.
  - reflexivity.
  - intro key. unfold MapFrameState.isCached, MapFrame.isCached.
    replace (mapWithoutCache (cacheView (release f)))
      with (mapWithoutCache (cacheView f)) by reflexivity.
    now destruct (mapWithoutCache (cacheView f)).
  - unfold needsSync, MapFrameState.isValid, release. simpl.
    destruct (_map f); simpl; [apply orb_true_r|reflexivity].
Qed.

(** X23.  With a live map, [sync] reports what [Map::sync] reports, takes
    the layers [Map::sync] left and the map's elevation pool; when a change
    is reported the computed members agree with those layers: the highest
    minimum level bounds every minimum level set, and the elevation layers
    are the elevation layers among them. *)
Theorem sync_with_map (f : Frame) (map : MapObject) :
  _map f = Some map ->
  fst (sync' f) = fst (Map_sync map f)
  /\ _layers (snd (sync' f)) = _layers (snd (Map_sync map f))
  /\ _pool (snd (sync' f)) = getElevationPool map
  /\ (fst (sync' f) = true ->
      _elevationLayers (snd (sync' f))
        = filter isElevation (_layers (snd (sync' f)))
      /\ forall l m,
           In l (_layers (snd (sync' f))) -> minLevelOf l = Some m ->
           (m <= _highestMinLevel (snd (sync' f)))%N)
  /\ (fst (sync' f) = false ->
      _elevationLayers (snd (sync' f))
        = _elevationLayers (snd (Map_sync map f))
      /\ _highestMinLevel (snd (sync' f))
         = _highestMinLevel (snd (Map_sync map f))).
Proof.
  intro Hmap. unfold sync. rewrite Hmap.
  destruct (Map_sync map f) as [changed f1]. simpl.
  destruct changed; simpl.
  - rewrite refreshComputedValues_eq. simpl.
    split_ands; try reflexivity; try discriminate.
    intros _. split; [reflexivity|].
    intros l m. apply refreshLoop_bound.
  - split_ands; try reflexivity; try discriminate. auto.
Qed.

(** X24.  [containsLayer] answers true exactly for the UIDs of the layers
    of the frame. *)
Theorem containsLayer_iff (f : Frame) (uid : Z) :
  containsLayer f uid = true <->
  exists l, In l (_layers f) /\ getUID l = uid.
Proof.
  unfold containsLayer. induction (_layers f) as [|i rest IH]; simpl.
  - split; [discriminate|]. intros (l & [] & _).
  - destruct (Z.eqb (getUID i) uid) eqn:E.
    + apply Z.eqb_eq in E. split; [|reflexivity]. intros _. exists i. auto.
    + apply Z.eqb_neq in E. rewrite IH. split.
      * intros (l & Hl & Hu). exists l. auto.
      * intros (l & [<-|Hl] & Hu); [contradiction|eauto].
Qed.

(** X25.  A copy of a frame gives the same verdicts, contains the same
    layers and needs a sync in the same cases as the original, but it
    starts without elevation layers, whatever the original holds; a refresh
    of the copy brings it to the refreshed original. *)
Theorem copy_starts_without_elevation_layers (f : Frame) :
  (forall key, MapFrameState.isCached (copy f) key = MapFrameState.isCached f key)
  /\ (forall uid, containsLayer (copy f) uid = containsLayer f uid)
  /\ needsSync (copy f) = needsSync f
  /\ _elevationLayers (copy f) = []
  /\ refreshComputedValues (copy f) = refreshComputedValues f.
Proof.
  split_ands; reflexivity.
Qed.

End LifeCycle.

End MapFrameMoreFacts.

(* ===================================================================== *)
(** * The further definitions at work *)
(* ===================================================================== *)

Module MoreScenarios.

Import TileBuilder TileBuilderSetup MapFrame Sample SampleSetup.
Import TileBuilderMoreFacts MapFrameMoreFacts.

Open Scope string_scope.

(** ** Construction *)

(** The driver that fails to load and the source of unknown profile are
    left out; the sources carry the names of their configurations. *)
Example newTileBuilder_sample :
  List.map getName (image_sources (newSampleBuilder (sampleMap "" false)))
    = ["a"; "b"]
  /\ List.map getName
       (heightfield_sources (newSampleBuilder (sampleMap "" false))) = ["h"]
  /\ isValid (newSampleBuilder (sampleMap "" false))
     = (true,
        mkTileBuilder geocentric
          [setName "a" geodeticA; setName "b" mercatorB]
          [setName "h" geodeticA] true GLOBAL_GEODETIC).
Proof. split_ands; reflexivity. Qed.

(** Under a mercator override the geodetic sources go and the builder,
    declared valid by the first call, is left with one image source. *)
Example newTileBuilder_sample_mercator :
  List.map getName
    (image_sources
       (snd (isValid (newSampleBuilder (sampleMap "global-mercator" false)))))
  = ["b"]
  /\ heightfield_sources
       (snd (isValid (newSampleBuilder (sampleMap "global-mercator" false))))
     = [].
Proof. split; reflexivity. Qed.

(** C6.  The builder the constructor makes for a map that names the
    mercator profile and has one geodetic image source: it holds that source
    when [isValid] is called, the call erases it as incompatible and answers
    true, leaving a builder without any source; the next call on that
    builder answers false. *)
Theorem isValid_accepts_the_builder_it_empties :
  image_sources (newSampleBuilder mercatorMapWithGeodeticSource)
    = [setName "a" geodeticA]
  /\ heightfield_sources (newSampleBuilder mercatorMapWithGeodeticSource) = []
  /\ isValid (newSampleBuilder mercatorMapWithGeodeticSource)
     = (true, mkTileBuilder geocentric [] [] true GLOBAL_MERCATOR)
  /\ returnValue
       (isValid
          (builderAfter (isValid (newSampleBuilder mercatorMapWithGeodeticSource))))
     = false.
Proof. split_ands; reflexivity. Qed.

Lemma createValidImage_descendants_resolve_witness :
  nthParent 2 (key 3 5 6) = Some (key 1 1 1)
  /\ exists image k image' k',
       imageTileAfter (createValidImage geodeticA (key 1 1 1) (None, None))
         = (Some image, Some k)
       /\ outcome (createValidImage (sourceDownTo "geodetic-a" GLOBAL_GEODETIC 2)
                     (key 3 5 6) (None, None))
          = (true, (Some image', Some k'))
       /\ level k <= level k'.
Proof.
  split; [reflexivity|].
  apply (createValidImage_descendants_resolve geodeticA
           (sourceDownTo "geodetic-a" GLOBAL_GEODETIC 2) (key 1 1 1)
           (key 3 5 6) 2 (None, None) (None, None)).
  - reflexivity.
  - intros k [<-|[<-|[]]] _; discriminate.
  - reflexivity.
Defined.

Lemma createValidHeightField_descendants_resolve_witness :
  nthParent 2 (key 3 5 6) = Some (key 1 1 1)
  /\ exists k',
       In k' (keysAsked
                (createValidHeightField
                   (sourceDownTo "geodetic-a" GLOBAL_GEODETIC 2) (key 3 5 6)))
       /\ createHeightField (sourceDownTo "geodetic-a" GLOBAL_GEODETIC 2) k'
          <> None
       /\ level (key 1 1 1) <= level k'.
Proof.
  split; [reflexivity|].
  apply (createValidHeightField_descendants_resolve geodeticA
           (sourceDownTo "geodetic-a" GLOBAL_GEODETIC 2) (key 1 1 1)
           (key 3 5 6) 2 (key 1 1 1)).
  - reflexivity.
  - intros a [<-|[<-|[]]] _; discriminate.
  - left. reflexivity.
  - discriminate.
Defined.

Lemma createValidHeightField_keeps_found_dimensions_witness :
  exists k hf,
    In k (keysAsked (createValidHeightField geodeticA (key 3 5 6)))
    /\ createHeightField geodeticA k = Some hf
    /\ getNumColumns (16%N, 8%N, 103) = getNumColumns hf
    /\ getNumRows (16%N, 8%N, 103) = getNumRows hf.
Proof.
  apply (createValidHeightField_keeps_found_dimensions geodeticA (key 3 5 6)
           (16%N, 8%N, 103)).
  - intros parentKey hf childKey columns rows. split; reflexivity.
  - reflexivity.
Defined.

Lemma isValid_known_sources_witness :
  profileType
    (returnValue (getDataProfile (builder [geodeticA; mercatorB] [geodeticC])))
    <> UNKNOWN
  /\ (returnValue (isValid (builder [geodeticA; mercatorB] [geodeticC])) = false
      <->
      profileType
        (returnValue
           (getDataProfile (builder [geodeticA; mercatorB] [geodeticC])))
        = PROJECTED
      /\ getCoordinateSystemType
           (TileBuilder.map (builder [geodeticA; mercatorB] [geodeticC]))
         = CSTYPE_GEOCENTRIC).
Proof.
  apply (isValid_known_sources (builder [geodeticA; mercatorB] [geodeticC])).
  - reflexivity.
  - repeat constructor; discriminate.
  - repeat constructor; discriminate.
  - left. discriminate.
Defined.

Lemma isValid_again_without_preset_witness :
  isValid (builderAfter (isValid (builder [geodeticA; projectedD] [mercatorB])))
  = isValid (builder [geodeticA; projectedD] [mercatorB])
  /\ (returnValue (isValid (builder [geodeticA; projectedD] [mercatorB])) = true ->
      image_sources
        (builderAfter (isValid (builder [geodeticA; projectedD] [mercatorB])))
        <> []
      \/ heightfield_sources
           (builderAfter (isValid (builder [geodeticA; projectedD] [mercatorB])))
           <> []).
Proof.
  apply (isValid_again_without_preset
           (builder [geodeticA; projectedD] [mercatorB])).
  right. reflexivity.
Defined.

Lemma addSources_offline_never_loads_witness :
  addSources loadTileSource createCachedSource (sampleMap "" true)
    (getImageSources (sampleMap "" true)) [geodeticC] "sample.earth" None
  = [geodeticC].
Proof.
  apply (proj2 (addSources_offline_never_loads unit createCachedSource
                  loadTileSource loadTileSource (sampleMap "" true)
                  (getImageSources (sampleMap "" true)) [geodeticC]
                  "sample.earth" None eq_refl)).
  - reflexivity.
  - intros source Hin. simpl in Hin.
    destruct Hin as [<-|[<-|[<-|[<-|[]]]]]; reflexivity.
Defined.

Lemma newTileBuilder_override_wins_witness :
  returnValue (getDataProfile (newSampleBuilder (sampleMap "global-mercator" false)))
  = GLOBAL_MERCATOR.
Proof.
  apply (newTileBuilder_override_wins unit loadTileSource createCachedSource
           profileOfType STR_GLOBAL_MERCATOR STR_GLOBAL_GEODETIC
           (sampleMap "global-mercator" false) "sample.earth" None
           GLOBAL_MERCATOR eq_refl eq_refl).
  left. split; reflexivity.
Defined.

Lemma newTileBuilder_isValid_witness :
  returnValue (isValid (newSampleBuilder (sampleMap "" true))) = false.
Proof.
  apply (proj2 (newTileBuilder_isValid unit loadTileSource createCachedSource
                  profileOfType STR_GLOBAL_MERCATOR STR_GLOBAL_GEODETIC
                  (sampleMap "" true) "sample.earth" None eq_refl eq_refl)).
  - reflexivity.
  - reflexivity.
  - intros source Hin. simpl in Hin.
    destruct Hin as [<-|[<-|[<-|[<-|[<-|[]]]]]]; reflexivity.
Defined.

(** ** The frame *)

Lemma isCached_verdict_order_independent_witness :
  verdict (isCached (withCache [IsTerrainLayer cachedLayer; OtherLayer;
                                IsTerrainLayer uncachedLayer]) 7)
  = verdict (isCached (withCache [OtherLayer; IsTerrainLayer uncachedLayer;
                                  IsTerrainLayer cachedLayer]) 7).
Proof.
  apply (isCached_verdict_order_independent
           (withCache [IsTerrainLayer cachedLayer; OtherLayer;
                       IsTerrainLayer uncachedLayer])
           (withCache [OtherLayer; IsTerrainLayer uncachedLayer;
                       IsTerrainLayer cachedLayer]) 7 eq_refl).
  apply (Permutation_cons_append
           [OtherLayer; IsTerrainLayer uncachedLayer]
           (IsTerrainLayer cachedLayer)).
Defined.

Lemma isCached_reads_cache_only_when_needed_witness :
  In (1, LayerIsCached)
     (callsMade (isCached (withCache [OtherLayer; IsTerrainLayer cachedLayer]) 7))
  /\ exists layer src,
       nth_error (_layers (withCache [OtherLayer; IsTerrainLayer cachedLayer])) 1
         = Some (IsTerrainLayer layer)
       /\ getEnabled layer = true
       /\ cachePolicy layer = Normal
       /\ mayHaveData layer 7 = true
       /\ getTileSource layer = Some src
       /\ blacklistContains src 7 = false.
Proof.
  assert (Hin : In (1, LayerIsCached)
                   (callsMade (isCached
                      (withCache [OtherLayer; IsTerrainLayer cachedLayer]) 7))).
  { simpl. tauto. }
  split; [exact Hin|].
  apply (isCached_reads_cache_only_when_needed
           (withCache [OtherLayer; IsTerrainLayer cachedLayer]) 7 1 Hin).
Defined.

Lemma sync_without_map_witness :
  MapFrameState._map (frameOf None sampleLayers) = None
  /\ MapFrameState.sync Map_sync (frameOf None sampleLayers)
     = (true, MapFrameState.mkMapFrame false None None 9%N 0%Z [] [] None)
  /\ MapFrameState.isCached
       (snd (MapFrameState.sync Map_sync (frameOf None sampleLayers))) 7
     = (true, []).
Proof.
  split; [reflexivity|]. split; [reflexivity|].
  apply (sync_without_map unit Map_sync (frameOf None sampleLayers) 7 eq_refl).
Defined.

Lemma sync_with_map_witness :
  fst (MapFrameState.sync Map_sync (frameOf (Some liveMap) [])) = true
  /\ MapFrameState._elevationLayers
       (snd (MapFrameState.sync Map_sync (frameOf (Some liveMap) [])))
     = [elevation 3 None; elevation 4 (Some 5%N)]
  /\ MapFrameState._highestMinLevel
       (snd (MapFrameState.sync Map_sync (frameOf (Some liveMap) []))) = 5%N.
Proof.
  split; [reflexivity|]. split; [|reflexivity].
  apply (proj1 (proj2 (proj2 (proj2
           (sync_with_map unit Map_sync (frameOf (Some liveMap) []) liveMap
              eq_refl))))).
  reflexivity.
Defined.

End MoreScenarios.
